(** * Contract Analysis API

    A shallow embedding of [last_phase_app_api.py]: the FastAPI handlers
    [/ingest], [/extract], [/ask], [/audit] and [/metrics] together with the
    helper functions they call.  The handlers are written in a small
    state-and-exception monad over a [World] that holds the three stores the
    service mutates (metadata directory, upload directory, vector index), its
    process-wide counters, and the draws made so far from [uuid4] and from the
    wall clock.  The third-party services (PDF parsing, text splitting,
    embeddings, similarity search, chat completion, [json.loads], pydantic
    validation) are the fields of the [Backend] class, so every theorem holds
    for every behaviour of those services and every test stub is an
    [Instance]. *)

From Stdlib Require Import ZArith Floats.
From stdpp Require Import gmap strings list fin_maps pretty.

#[local] Set Warnings "-register-all".
#[local] Open Scope Z_scope.

(** ** Python values *)

(** The values [json.loads] produces and [json.dump] accepts.  A Python [dict]
    with string keys is a [gmap string json]. *)
Inductive json :=
  | JNull
  | JBool (b : bool)
  | JInt (n : Z)
  | JFloat (x : float)
  | JStr (s : string)
  | JArr (xs : list json)
  | JObj (kvs : gmap string json).

Abbreviation dict := (gmap string json).

(** Truth value of a Python object, as [if not x] tests it. *)
Definition truthy (v : json) : bool :=
  match v with
  | JNull => false
  | JBool b => b
  | JInt n => negb (n =? 0)
  | JFloat x => negb (PrimFloat.eqb x PrimFloat.zero)
  | JStr s => negb (String.eqb s "")
  | JArr xs => match xs with [] => false | _ => true end
  | JObj kvs => negb (bool_decide (kvs = ∅))
  end.

Definition nl : string := String (Ascii.ascii_of_nat 10) EmptyString.

(** [len(xs)] *)
Definition len {A} (xs : list A) : Z := Z.of_nat (length xs).

(** Text in the ASCII range, where a code and a Python character are one. *)
Definition ascii_text (s : string) : bool :=
  forallb (λ c, (Ascii.nat_of_ascii c <? 128)%nat) (String.list_ascii_of_string s).

(** [s.endswith(suffix)] *)
Definition endswith (s suffix : string) : bool :=
  String.prefix (String.rev suffix) (String.rev s).

(** [s[:n]] for a bound [n] that is not negative.  A [string] is a sequence
    of 8-bit codes and the slice counts those, where Python counts code
    points: the two agree on ASCII text, which is what [ascii_text] says of a
    string. *)
Definition slice_to (n : Z) (s : string) : string := String.substring 0 (Z.to_nat n) s.

(** [sep.join(parts)] *)
Definition join (sep : string) (parts : list string) : string :=
  String.concat sep parts.

(** [x in ids] for the result [x] of [dict.get] and a list of strings: [None]
    and non-string values equal no string. *)
Definition py_in (x : option json) (ids : list string) : bool :=
  match x with
  | Some (JStr s) => bool_decide (s ∈ ids)
  | _ => false
  end.

(** ** Exceptions *)

Inductive exn :=
  | HTTPException (status_code : Z) (detail : string)
  | JSONDecodeError (msg : string)
  | TypeError (msg : string)
  | ValidationError (msg : string)
  | ServiceError (msg : string).

Definition is_HTTPException (e : exn) : bool :=
  match e with HTTPException _ _ => true | _ => false end.

Definition is_JSONDecodeError (e : exn) : bool :=
  match e with JSONDecodeError _ => true | _ => false end.

(** [str(e)] *)
Definition str (e : exn) : string :=
  match e with
  | HTTPException status_code detail => pretty status_code +:+ ": " +:+ detail
  | JSONDecodeError msg | TypeError msg | ValidationError msg | ServiceError msg => msg
  end.

Inductive outcome (A : Type) :=
  | Return (a : A)
  | Raise (e : exn).
Arguments Return {A} a.
Arguments Raise {A} e.

(** The status line FastAPI sends for a handler's outcome. *)
Definition http_status {A} (o : outcome A) : Z :=
  match o with
  | Return _ => 200
  | Raise (HTTPException status_code _) => status_code
  | Raise _ => 500
  end.

(** ** Pydantic models *)

Module Signatory.
Record t := mk { name : string; title : option string }.
End Signatory.

Module LiabilityCap.
Record t := mk { amount : option float; currency : option string }.
End LiabilityCap.

Module ContractFields.
Record t := mk {
  parties : list string;
  effective_date : option string;
  term : option string;
  governing_law : option string;
  payment_terms : option string;
  termination : option string;
  auto_renewal : option string;
  confidentiality : option string;
  indemnity : option string;
  liability_cap : option LiabilityCap.t;
  signatories : list Signatory.t
}.
End ContractFields.

Module IngestResponse.
Record t := mk { document_ids : list string; message : string; total_chunks : Z }.
End IngestResponse.

Module ExtractRequest.
Record t := mk { document_id : string }.
End ExtractRequest.

Module ExtractResponse.
Record t := mk { document_id : string; fields : ContractFields.t }.
End ExtractResponse.

Module AskRequest.
Record t := mk { question : string; document_ids : option (list string); k : Z }.
End AskRequest.

Module Citation.
Record t := mk { document_id : string; page : option Z; content : string }.
End Citation.

Module AskResponse.
Record t := mk { question : string; answer : string; citations : list Citation.t }.
End AskResponse.

Module RiskFinding.
Record t := mk {
  risk_type : string;
  severity : string;
  description : string;
  evidence : string;
  recommendation : option string
}.
End RiskFinding.

Module AuditRequest.
Record t := mk { document_id : string }.
End AuditRequest.

Module AuditResponse.
Record t := mk {
  document_id : string;
  total_risks : Z;
  findings : list RiskFinding.t;
  audit_date : string
}.
End AuditResponse.

Module MetricsResponse.
Record t := mk {
  total_documents : Z;
  total_ingestions : Z;
  total_extractions : Z;
  total_questions : Z;
  total_audits : Z
}.
End MetricsResponse.

(** [ContractFields()]: every field at its declared default. *)
Definition ContractFields_default : ContractFields.t :=
  ContractFields.mk [] None None None None None None None None None [].

Definition opt_json {A} (f : A → json) (o : option A) : json :=
  match o with Some a => f a | None => JNull end.

(** [.dict()] of the three models the handlers store. *)
Definition Signatory_dict (s : Signatory.t) : json :=
  JObj (<["name" := JStr (Signatory.name s)]>
       (<["title" := opt_json JStr (Signatory.title s)]> ∅)).

Definition LiabilityCap_dict (c : LiabilityCap.t) : json :=
  JObj (<["amount" := opt_json JFloat (LiabilityCap.amount c)]>
       (<["currency" := opt_json JStr (LiabilityCap.currency c)]> ∅)).

Definition ContractFields_dict (f : ContractFields.t) : json :=
  JObj (<["parties" := JArr (JStr <$> ContractFields.parties f)]>
       (<["effective_date" := opt_json JStr (ContractFields.effective_date f)]>
       (<["term" := opt_json JStr (ContractFields.term f)]>
       (<["governing_law" := opt_json JStr (ContractFields.governing_law f)]>
       (<["payment_terms" := opt_json JStr (ContractFields.payment_terms f)]>
       (<["termination" := opt_json JStr (ContractFields.termination f)]>
       (<["auto_renewal" := opt_json JStr (ContractFields.auto_renewal f)]>
       (<["confidentiality" := opt_json JStr (ContractFields.confidentiality f)]>
       (<["indemnity" := opt_json JStr (ContractFields.indemnity f)]>
       (<["liability_cap" := opt_json LiabilityCap_dict (ContractFields.liability_cap f)]>
       (<["signatories" := JArr (Signatory_dict <$> ContractFields.signatories f)]>
        ∅))))))))))).

Definition RiskFinding_dict (r : RiskFinding.t) : json :=
  JObj (<["risk_type" := JStr (RiskFinding.risk_type r)]>
       (<["severity" := JStr (RiskFinding.severity r)]>
       (<["description" := JStr (RiskFinding.description r)]>
       (<["evidence" := JStr (RiskFinding.evidence r)]>
       (<["recommendation" := opt_json JStr (RiskFinding.recommendation r)]> ∅))))).

(** ** LangChain data *)

Record Document := { page_content : string; metadata : dict }.

Inductive Message :=
  | SystemMessage (content : string)
  | HumanMessage (content : string).

(** A multipart upload: [file.filename] and the bytes [file.read()] returns. *)
Record UploadFile := { filename : string; file_bytes : list Byte.byte }.

(** ** The state of the service *)

(** The module-level [metrics] dictionary. *)
Record Metrics := {
  total_ingestions : Z;
  total_extractions : Z;
  total_questions : Z;
  total_audits : Z;
  total_streams : Z
}.

Record World := {
  (** files of [METADATA_DIR], by file name, each holding one JSON record *)
  metadata_dir : gmap string dict;
  (** the stored PDFs, by the path string the service records for them *)
  upload_dir : gmap string (list Byte.byte);
  (** the collection persisted under [CHROMA_DIR] *)
  chroma_store : list Document;
  document_registry : gmap string dict;
  metrics : Metrics;
  (** how many identifiers [uuid.uuid4] has handed out *)
  uuid_draws : nat;
  (** how many times [datetime.now] has been read *)
  clock_reads : nat;
  (** the prompts sent to the chat model, oldest first *)
  llm_calls : list (list Message)
}.

Definition set_metadata_dir (f : gmap string dict → gmap string dict) (w : World) : World :=
  {| metadata_dir := f (metadata_dir w); upload_dir := upload_dir w;
     chroma_store := chroma_store w; document_registry := document_registry w;
     metrics := metrics w; uuid_draws := uuid_draws w;
     clock_reads := clock_reads w; llm_calls := llm_calls w |}.

Definition set_upload_dir
    (f : gmap string (list Byte.byte) → gmap string (list Byte.byte)) (w : World) : World :=
  {| metadata_dir := metadata_dir w; upload_dir := f (upload_dir w);
     chroma_store := chroma_store w; document_registry := document_registry w;
     metrics := metrics w; uuid_draws := uuid_draws w;
     clock_reads := clock_reads w; llm_calls := llm_calls w |}.

Definition set_chroma_store (f : list Document → list Document) (w : World) : World :=
  {| metadata_dir := metadata_dir w; upload_dir := upload_dir w;
     chroma_store := f (chroma_store w); document_registry := document_registry w;
     metrics := metrics w; uuid_draws := uuid_draws w;
     clock_reads := clock_reads w; llm_calls := llm_calls w |}.

Definition set_document_registry (f : gmap string dict → gmap string dict) (w : World) : World :=
  {| metadata_dir := metadata_dir w; upload_dir := upload_dir w;
     chroma_store := chroma_store w; document_registry := f (document_registry w);
     metrics := metrics w; uuid_draws := uuid_draws w;
     clock_reads := clock_reads w; llm_calls := llm_calls w |}.

Definition set_metrics (f : Metrics → Metrics) (w : World) : World :=
  {| metadata_dir := metadata_dir w; upload_dir := upload_dir w;
     chroma_store := chroma_store w; document_registry := document_registry w;
     metrics := f (metrics w); uuid_draws := uuid_draws w;
     clock_reads := clock_reads w; llm_calls := llm_calls w |}.

Definition set_uuid_draws (f : nat → nat) (w : World) : World :=
  {| metadata_dir := metadata_dir w; upload_dir := upload_dir w;
     chroma_store := chroma_store w; document_registry := document_registry w;
     metrics := metrics w; uuid_draws := f (uuid_draws w);
     clock_reads := clock_reads w; llm_calls := llm_calls w |}.

Definition set_clock_reads (f : nat → nat) (w : World) : World :=
  {| metadata_dir := metadata_dir w; upload_dir := upload_dir w;
     chroma_store := chroma_store w; document_registry := document_registry w;
     metrics := metrics w; uuid_draws := uuid_draws w;
     clock_reads := f (clock_reads w); llm_calls := llm_calls w |}.

Definition set_llm_calls (f : list (list Message) → list (list Message)) (w : World) : World :=
  {| metadata_dir := metadata_dir w; upload_dir := upload_dir w;
     chroma_store := chroma_store w; document_registry := document_registry w;
     metrics := metrics w; uuid_draws := uuid_draws w;
     clock_reads := clock_reads w; llm_calls := f (llm_calls w) |}.

(** ** The handler monad: state that survives an exception *)

Definition M (A : Type) : Type := World → outcome A * World.

Definition ret {A} (a : A) : M A := λ w, (Return a, w).

Definition raise {A} (e : exn) : M A := λ w, (Raise e, w).

Definition bind {A B} (m : M A) (f : A → M B) : M B :=
  λ w, match m w with
       | (Return a, w') => f a w'
       | (Raise e, w') => (Raise e, w')
       end.

(** [try: body / except Exception as e: handler e]; a handler that re-raises
    what it does not catch gives the narrower [except] clauses. *)
Definition try_except {A} (body : M A) (handler : exn → M A) : M A :=
  λ w, match body w with
       | (Return a, w') => (Return a, w')
       | (Raise e, w') => handler e w'
       end.

Definition gets {A} (f : World → A) : M A := λ w, (Return (f w), w).

Definition modify (f : World → World) : M unit := λ w, (Return tt, f w).

#[global] Instance M_ret : MRet M := @ret.
#[global] Instance M_bind : MBind M := λ A B f m, bind m f.

(** Code that touches no state runs in [outcome] alone. *)
#[global] Instance outcome_ret : MRet outcome := @Return.
#[global] Instance outcome_bind : MBind outcome :=
  λ A B f o, match o with Return a => f a | Raise e => Raise e end.

Definition lift {A} (o : outcome A) : M A := λ w, (o, w).

(** ** Third-party services *)

(** What the service calls but does not implement.  [None] stands for the
    call raising.  The two draws, [uuid4] and [datetime_now], are indexed by
    how many draws came before. *)
Class Backend := {
  (** [str(uuid.uuid4())] *)
  uuid4 : nat → string;
  (** [datetime.now().isoformat()] *)
  datetime_now : nat → string;
  (** [PyPDFLoader(path).load()] on the bytes stored at [path] *)
  PyPDFLoader_load : string → list Byte.byte → option (list Document);
  (** [RecursiveCharacterTextSplitter(chunk_size, chunk_overlap).split_documents] *)
  split_documents : Z → Z → list Document → list Document;
  (** whether [OpenAIEmbeddings] embeds these texts or the call raises *)
  embed_documents : list string → bool;
  (** [vectordb.similarity_search(query, k=k)] over the persisted collection *)
  similarity_search : list Document → string → Z → option (list Document);
  (** [ChatOpenAI(model, temperature)(prompt).content] *)
  ChatOpenAI : option Z → list Message → option string;
  (** [json.loads]; [None] is [json.JSONDecodeError] *)
  json_loads : string → option json;
  (** pydantic's validation of the keyword arguments of [ContractFields(...)] *)
  ContractFields_validate : dict → option ContractFields.t;
  (** pydantic's validation of the keyword arguments of [RiskFinding(...)] *)
  RiskFinding_validate : dict → option RiskFinding.t;
  (** pydantic's coercion of a non-string value given for a [str] field *)
  coerce_str : json → option string;
  (** pydantic's coercion of a non-integer value given for an [int] field *)
  coerce_int : json → option Z
}.

(** ** Constants *)

Definition UPLOAD_DIR : string := "uploaded_contracts".

(** The name, inside [METADATA_DIR], of [Path(METADATA_DIR) / f"{document_id}.json"].
    The directory is keyed by this name as it is spelled: an identifier is
    taken to be a plain file-name stem, as [uuid4] gives them.  Two spellings
    the file system resolves to one file, or a stem with a directory part,
    are outside what the model tells apart. *)
Definition metadata_path (document_id : string) : string := document_id +:+ ".json".

(** [str(Path(UPLOAD_DIR) / f"{document_id}_{file.filename}")] *)
Definition upload_path (document_id filename : string) : string :=
  UPLOAD_DIR +:+ "/" +:+ document_id +:+ "_" +:+ filename.

Definition NO_RELEVANT_INFORMATION : string :=
  "No relevant information found in the specified documents.".

Definition ASK_SYSTEM_PROMPT : string :=
  "You are a legal contract analysis assistant. Use ONLY the provided context to answer questions. Be precise and cite specific clauses when possible.".

(** The two long system prompts are kept by their first sentence; the chat
    model is a [Backend] function of the whole prompt either way. *)
Definition EXTRACT_SYSTEM_PROMPT : string :=
  "Extract structured contract fields from the provided text and return a valid JSON object with these exact keys:".

Definition AUDIT_SYSTEM_PROMPT : string :=
  "You are a contract risk auditor. Analyze the contract text and identify risky clauses.".

Section Service.
Context `{B : Backend}.

(** ** Helper functions *)

(** The file is written with the record itself: opening the file is taken to
    succeed, and [json.dump] followed by [json.load] to give the record
    back. *)
Definition save_document_metadata (document_id : string) (metadata : dict) : M unit :=
  modify (set_metadata_dir (<[metadata_path document_id := metadata]>)).

Definition load_document_metadata (document_id : string) : M dict :=
  files ← gets metadata_dir;
  match files !! metadata_path document_id with
  | None => raise (HTTPException 404 ("Document " +:+ document_id +:+ " not found"))
  | Some metadata => ret metadata
  end.

Definition load_pdf (file_path : string) : M (list Document) :=
  files ← gets upload_dir;
  match files !! file_path with
  | None => raise (ServiceError ("File path " +:+ file_path +:+ " is not a valid file"))
  | Some bytes =>
      match PyPDFLoader_load file_path bytes with
      | None => raise (ServiceError "PyPDFLoader failed")
      | Some pages => ret pages
      end
  end.

Definition chunk_documents (documents : list Document) (chunk_size chunk_overlap : Z)
    : list Document :=
  split_documents chunk_size chunk_overlap documents.

(** [chunk.metadata["document_id"] = document_id] *)
Definition tag (document_id : string) (chunk : Document) : Document :=
  {| page_content := page_content chunk;
     metadata := <["document_id" := JStr document_id]> (metadata chunk) |}.

(** Returns the chunks as the loop over them leaves them: the caller's list
    holds the same, now tagged, objects. *)
Definition create_vector_db (chunks : list Document) (document_id : string)
    : M (list Document) :=
  let chunks := tag document_id <$> chunks in
  if embed_documents (page_content <$> chunks)
  then modify (set_chroma_store (λ store, store ++ chunks));; ret chunks
  else raise (ServiceError "OpenAIEmbeddings failed").

(** A call of the chat model: recorded, then answered or failed. *)
Definition llm (temperature : option Z) (prompt : list Message) : M string :=
  modify (set_llm_calls (λ calls, calls ++ [prompt]));;
  match ChatOpenAI temperature prompt with
  | None => raise (ServiceError "ChatOpenAI failed")
  | Some content => ret content
  end.

Definition search (query : string) (k : Z) : M (list Document) :=
  store ← gets chroma_store;
  match similarity_search store query k with
  | None => raise (ServiceError "similarity_search failed")
  | Some docs => ret docs
  end.

(** The [for doc in all_docs] loop of [ask_question], with [docs] the list
    built so far. *)
Fixpoint filter_loop (document_ids : list string) (k : Z)
    (all_docs docs : list Document) : list Document :=
  match all_docs with
  | [] => docs
  | doc :: rest =>
      if py_in (metadata doc !! "document_id") document_ids then
        let docs := docs ++ [doc] in
        if len docs >=? k then docs else filter_loop document_ids k rest docs
      else filter_loop document_ids k rest docs
  end.

(** Lines 218-228 of [ask_question]: the retrieval step. *)
Definition retrieve (query : string) (k : Z) (document_ids : option (list string))
    : M (list Document) :=
  match document_ids with
  | Some ((_ :: _) as document_ids) =>
      all_docs ← search query (k * 5);
      ret (filter_loop document_ids k all_docs [])
  | _ => search query k
  end.

Definition ask_question (query : string) (k : Z) (document_ids : option (list string))
    : M (string * list Document) :=
  docs ← retrieve query k document_ids;
  match docs with
  | [] => ret (NO_RELEVANT_INFORMATION, [])
  | _ =>
      let context := join (nl +:+ nl) (page_content <$> docs) in
      let prompt :=
        [SystemMessage ASK_SYSTEM_PROMPT;
         HumanMessage ("Context:" +:+ nl +:+ context +:+ nl +:+ nl +:+ "Question: " +:+ query)] in
      answer ← llm None prompt;
      ret (answer, docs)
  end.

Definition loads (s : string) : outcome json :=
  match json_loads s with
  | None => Raise (JSONDecodeError "Expecting value")
  | Some v => Return v
  end.

(** [ContractFields] called with [fields_dict] unpacked as its keyword
    arguments: unpacking needs a mapping, then pydantic validates. *)
Definition ContractFields_init (fields_dict : json) : outcome ContractFields.t :=
  match fields_dict with
  | JObj kwargs =>
      match ContractFields_validate kwargs with
      | Some fields => Return fields
      | None => Raise (ValidationError "validation error for ContractFields")
      end
  | _ => Raise (TypeError "argument after ** must be a mapping")
  end.

Definition RiskFinding_init (finding : json) : outcome RiskFinding.t :=
  match finding with
  | JObj kwargs =>
      match RiskFinding_validate kwargs with
      | Some r => Return r
      | None => Raise (ValidationError "validation error for RiskFinding")
      end
  | _ => Raise (TypeError "argument after ** must be a mapping")
  end.

(** The [messages] of [extract_contract_fields]. *)
Definition extract_messages (full_text : string) : list Message :=
  [SystemMessage EXTRACT_SYSTEM_PROMPT;
   HumanMessage ("Contract text:" +:+ nl +:+ nl +:+ slice_to 8000 full_text)].

(** The body of the [try] of [extract_contract_fields]. *)
Definition parse_fields (content : string) : outcome ContractFields.t :=
  fields_dict ← loads content;
  ContractFields_init fields_dict.

Definition extract_contract_fields (full_text : string) : M ContractFields.t :=
  resp ← llm (Some 0) (extract_messages full_text);
  try_except (lift (parse_fields resp))
    (λ e, if is_JSONDecodeError e then ret ContractFields_default else raise e).

(** What [for finding in findings_list] iterates over. *)
Definition iterate (v : json) : outcome (list json) :=
  match v with
  | JArr xs => Return xs
  | JObj kvs => Return (JStr <$> (map_to_list kvs).*1)
  | JStr s => Return ((λ c, JStr (String c EmptyString)) <$> String.list_ascii_of_string s)
  | _ => Raise (TypeError "object is not iterable")
  end.

(** A list comprehension [[f(x) for x in xs]] whose [f] may raise. *)
Fixpoint mapM {A R} (f : A → outcome R) (xs : list A) : outcome (list R) :=
  match xs with
  | [] => Return []
  | x :: xs => r ← f x; rs ← mapM f xs; Return (r :: rs)
  end.

(** The [messages] of [audit_contract_risks]. *)
Definition audit_messages (full_text : string) : list Message :=
  [SystemMessage AUDIT_SYSTEM_PROMPT;
   HumanMessage ("Analyze this contract for risks:" +:+ nl +:+ nl +:+ slice_to 10000 full_text)].

(** The body of the [try] of [audit_contract_risks]. *)
Definition parse_findings (content : string) : outcome (list RiskFinding.t) :=
  findings_list ← loads content;
  items ← iterate findings_list;
  mapM RiskFinding_init items.

Definition audit_contract_risks (full_text : string) : M (list RiskFinding.t) :=
  resp ← llm (Some 0) (audit_messages full_text);
  try_except (lift (parse_findings resp)) (λ e, ret []).

(** ** API endpoints *)

(** [datetime.now().isoformat()] *)
Definition now_isoformat : M string :=
  n ← gets clock_reads;
  modify (set_clock_reads S);;
  mret (datetime_now n).

(** [except HTTPException: raise] followed by
    [except Exception as e: raise HTTPException(status_code=500, ...)]. *)
Definition http_or_500 {A} (prefix : string) (body : M A) : M A :=
  try_except body
    (λ e, if is_HTTPException e then raise e
          else raise (HTTPException 500 (prefix +:+ str e))).

Definition add_ingestions (n : Z) (m : Metrics) : Metrics :=
  {| total_ingestions := total_ingestions m + n;
     total_extractions := total_extractions m;
     total_questions := total_questions m;
     total_audits := total_audits m;
     total_streams := total_streams m |}.

Definition add_extractions (n : Z) (m : Metrics) : Metrics :=
  {| total_ingestions := total_ingestions m;
     total_extractions := total_extractions m + n;
     total_questions := total_questions m;
     total_audits := total_audits m;
     total_streams := total_streams m |}.

Definition add_questions (n : Z) (m : Metrics) : Metrics :=
  {| total_ingestions := total_ingestions m;
     total_extractions := total_extractions m;
     total_questions := total_questions m + n;
     total_audits := total_audits m;
     total_streams := total_streams m |}.

Definition add_audits (n : Z) (m : Metrics) : Metrics :=
  {| total_ingestions := total_ingestions m;
     total_extractions := total_extractions m;
     total_questions := total_questions m;
     total_audits := total_audits m + n;
     total_streams := total_streams m |}.

(** The body of the [for file in files] loop of [ingest_contracts]; gives
    the identifier it appends and the [len(chunks)] it adds. *)
Definition ingest_file (file : UploadFile) : M (string * Z) :=
  if negb (endswith (filename file) ".pdf") then
    raise (HTTPException 400 ("File " +:+ filename file +:+ " is not a PDF"))
  else
    n ← gets uuid_draws;
    modify (set_uuid_draws S);;
    let document_id := uuid4 n in
    let file_path := upload_path document_id (filename file) in
    modify (set_upload_dir (<[file_path := file_bytes file]>));;
    docs ← load_pdf file_path;
    let chunks := chunk_documents docs 1000 200 in
    chunks ← create_vector_db chunks document_id;
    let full_text := join nl (page_content <$> docs) in
    upload_date ← now_isoformat;
    let metadata : dict :=
      <["document_id" := JStr document_id]>
      (<["filename" := JStr (filename file)]>
      (<["upload_date" := JStr upload_date]>
      (<["num_pages" := JInt (len docs)]>
      (<["num_chunks" := JInt (len chunks)]>
      (<["file_path" := JStr file_path]>
      (<["full_text_preview" := JStr (slice_to 500 full_text)]> ∅)))))) in
    save_document_metadata document_id metadata;;
    modify (set_document_registry (<[document_id := metadata]>));;
    mret (document_id, len chunks).

Fixpoint ingest_loop (files : list UploadFile) (document_ids : list string)
    (total_chunks : Z) : M (list string * Z) :=
  match files with
  | [] => mret (document_ids, total_chunks)
  | file :: files =>
      r ← ingest_file file;
      ingest_loop files (document_ids ++ [r.1]) (total_chunks + r.2)
  end.

Definition ingest_contracts (files : list UploadFile) : M IngestResponse.t :=
  match files with
  | [] => raise (HTTPException 400 "No files provided")
  | _ =>
      try_except
        (r ← ingest_loop files [] 0;
         modify (set_metrics (add_ingestions (len files)));;
         mret (IngestResponse.mk r.1
                 ("Successfully ingested " +:+ pretty (len files) +:+ " document(s)")
                 r.2))
        (λ e, raise (HTTPException 500 ("Error during ingestion: " +:+ str e)))
  end.

(** [metadata.get("file_path")] and the test
    [if not file_path or not Path(file_path).exists()] shared by
    [extract_fields] and [audit_contract]. *)
Definition backing_pdf (document_id : string) (metadata : dict) : M string :=
  let not_found :=
    HTTPException 404 ("PDF file for document " +:+ document_id +:+ " not found") in
  match metadata !! "file_path" with
  | None => raise not_found
  | Some file_path =>
      if negb (truthy file_path) then raise not_found
      else
        match file_path with
        | JStr path =>
            files ← gets upload_dir;
            if bool_decide (is_Some (files !! path)) then mret path
            else raise not_found
        | _ => raise (TypeError "expected str, bytes or os.PathLike object")
        end
  end.

Definition extract_fields (request : ExtractRequest.t) : M ExtractResponse.t :=
  let document_id := ExtractRequest.document_id request in
  http_or_500 "Error extracting fields: "
    (metadata ← load_document_metadata document_id;
     file_path ← backing_pdf document_id metadata;
     docs ← load_pdf file_path;
     let full_text := join nl (page_content <$> docs) in
     fields ← extract_contract_fields full_text;
     let metadata := <["extracted_fields" := ContractFields_dict fields]> metadata in
     extraction_date ← now_isoformat;
     let metadata := <["extraction_date" := JStr extraction_date]> metadata in
     save_document_metadata document_id metadata;;
     modify (set_metrics (add_extractions 1));;
     mret (ExtractResponse.mk document_id fields)).

(** The [for doc_id in request.document_ids] check of [ask_question_api]. *)
Fixpoint validate_document_ids (document_ids : list string) : M unit :=
  match document_ids with
  | [] => mret tt
  | doc_id :: rest =>
      files ← gets metadata_dir;
      if bool_decide (is_Some (files !! metadata_path doc_id))
      then validate_document_ids rest
      else raise (HTTPException 404 ("Document " +:+ doc_id +:+ " not found"))
  end.

(** A [str] field: a string is taken as it is, anything else as pydantic
    coerces or rejects it. *)
Definition pydantic_str (v : json) : outcome string :=
  match v with
  | JStr s => Return s
  | _ =>
      match coerce_str v with
      | Some s => Return s
      | None => Raise (ValidationError "str type expected")
      end
  end.

(** An [Optional[int]] field. *)
Definition pydantic_optional_int (v : json) : outcome (option Z) :=
  match v with
  | JNull => Return None
  | JInt n => Return (Some n)
  | _ =>
      match coerce_int v with
      | Some n => Return (Some n)
      | None => Raise (ValidationError "value is not a valid integer")
      end
  end.

(** The [Citation(...)] built for one retrieved document. *)
Definition cite (doc : Document) : outcome Citation.t :=
  document_id ← pydantic_str (default (JStr "unknown") (metadata doc !! "document_id"));
  page ← pydantic_optional_int (default JNull (metadata doc !! "page"));
  Return (Citation.mk document_id page (slice_to 200 (page_content doc))).

Definition ask_question_api (request : AskRequest.t) : M AskResponse.t :=
  http_or_500 "Error answering question: "
    (match AskRequest.document_ids request with
     | Some ((_ :: _) as document_ids) => validate_document_ids document_ids
     | _ => mret tt
     end;;
     r ← ask_question (AskRequest.question request) (AskRequest.k request)
           (AskRequest.document_ids request);
     citations ← lift (mapM cite r.2);
     modify (set_metrics (add_questions 1));;
     mret (AskResponse.mk (AskRequest.question request) r.1 citations)).

Definition audit_contract (request : AuditRequest.t) : M AuditResponse.t :=
  let document_id := AuditRequest.document_id request in
  http_or_500 "Error auditing contract: "
    (metadata ← load_document_metadata document_id;
     file_path ← backing_pdf document_id metadata;
     docs ← load_pdf file_path;
     let full_text := join nl (page_content <$> docs) in
     findings ← audit_contract_risks full_text;
     audit_date ← now_isoformat;
     let audit_results : dict :=
       <["audit_date" := JStr audit_date]>
       (<["total_risks" := JInt (len findings)]>
       (<["findings" := JArr (RiskFinding_dict <$> findings)]> ∅)) in
     let metadata := <["audit_results" := JObj audit_results]> metadata in
     save_document_metadata document_id metadata;;
     modify (set_metrics (add_audits 1));;
     mret (AuditResponse.mk document_id (len findings) findings audit_date)).

(** [Path(METADATA_DIR).glob("*.json")] *)
Definition glob_json (dir : gmap string dict) : list string :=
  filter (λ name, endswith name ".json") (map_to_list dir).*1.

Definition get_metrics : M MetricsResponse.t :=
  dir ← gets metadata_dir;
  m ← gets metrics;
  mret (MetricsResponse.mk (len (glob_json dir)) (total_ingestions m)
          (total_extractions m) (total_questions m) (total_audits m)).

(** ** Sequences of requests *)

Inductive request :=
  | Ingest (files : list UploadFile)
  | Extract (r : ExtractRequest.t)
  | Audit (r : AuditRequest.t).

(** The state a request leaves behind, whatever it answered. *)
Definition handle (r : request) (w : World) : World :=
  match r with
  | Ingest files => (ingest_contracts files w).2
  | Extract r => (extract_fields r w).2
  | Audit r => (audit_contract r w).2
  end.

Definition run (requests : list request) (w : World) : World :=
  foldl (λ w r, handle r w) w requests.

End Service.

(** ** The document listing *)

(** [metadata[key]]: the one exception [list_documents] can raise on a record
    it has read. *)
Inductive KeyError := MkKeyError (key : string).

Definition subscript (metadata : dict) (key : string) : KeyError + json :=
  match metadata !! key with
  | Some v => inr v
  | None => inl (MkKeyError key)
  end.

(** The dictionary [list_documents] appends for one record; its five
    subscripts are evaluated in the order they are written. *)
Definition summary (metadata : dict) : KeyError + dict :=
  match subscript metadata "document_id" with
  | inl e => inl e
  | inr document_id =>
  match subscript metadata "filename" with
  | inl e => inl e
  | inr filename =>
  match subscript metadata "upload_date" with
  | inl e => inl e
  | inr upload_date =>
  match subscript metadata "num_pages" with
  | inl e => inl e
  | inr num_pages =>
  match subscript metadata "num_chunks" with
  | inl e => inl e
  | inr num_chunks =>
      inr (<["document_id" := document_id]>
          (<["filename" := filename]>
          (<["upload_date" := upload_date]>
          (<["num_pages" := num_pages]>
          (<["num_chunks" := num_chunks]> ∅)))))
  end end end end end.

(** The [for doc_id in Path(METADATA_DIR).glob("*.json")] loop over the
    records still to read, with [documents] the list built so far. *)
Fixpoint list_loop (records : list dict) (documents : list dict) : KeyError + list dict :=
  match records with
  | [] => inr documents
  | metadata :: records =>
      match summary metadata with
      | inl e => inl e
      | inr entry => list_loop records (documents ++ [entry])
      end
  end.

(** The records of the files [glob] yields, in the order it yields them. *)
Definition glob_records (dir : gmap string dict) : list dict :=
  (filter (λ entry, endswith entry.1 ".json") (map_to_list dir)).*2.

Module ListResponse.
Record t := mk { documents : list dict; total : Z }.
End ListResponse.

(** [GET /documents]; the handler has no [try], so a [KeyError] leaves it. *)
Definition list_documents (w : World) : KeyError + ListResponse.t :=
  match list_loop (glob_records (metadata_dir w)) [] with
  | inl e => inl e
  | inr documents => inr (ListResponse.mk documents (len documents))
  end.

(** ** The streamed answer *)

(** One [yield] of [stream_answer]: the dictionary given to [json.dumps],
    which the generator frames as a [data:] line. *)
Definition event (type : string) (content : json) : dict :=
  <["type" := JStr type]> (<["content" := content]> ∅).

(** The entry of [citations_data] for one document. *)
Definition citation_data (doc : Document) : json :=
  JObj (<["document_id" := default (JStr "unknown") (metadata doc !! "document_id")]>
       (<["page" := default JNull (metadata doc !! "page")]>
       (<["content" := JStr (slice_to 200 (page_content doc))]> ∅))).

(** The [for chunk in llm.stream(prompt)] loop: a chunk with empty content
    yields nothing. *)
Definition token_events (chunks : list string) : list dict :=
  (λ content, event "token" (JStr content)) <$> filter (λ content, content ≠ "") chunks.

Section Streaming.
Context `{B : Backend}.

(** [ChatOpenAI(model, streaming=True).stream(prompt)]: the contents of the
    chunks it delivers, and the message of the exception that ends the
    stream early, if one does. *)
Variable ChatOpenAI_stream : list Message → list string * option string.

(** [stream_answer] as the list of events it yields, oldest first, and the
    state it leaves.  Its whole body sits in [try ... except Exception], so
    an exception ends the stream with an [error] event after what was
    yielded before. *)
Definition stream_answer (query : string) (k : Z) (document_ids : option (list string))
    : World → list dict * World :=
  λ w,
    match retrieve query k document_ids w with
    | (Raise e, w) => ([event "error" (JStr (str e))], w)
    | (Return [], w) => ([event "error" (JStr "No relevant information found")], w)
    | (Return docs, w) =>
        let citations_data := citation_data <$> docs in
        let context := join (nl +:+ nl) (page_content <$> docs) in
        let prompt :=
          [SystemMessage ASK_SYSTEM_PROMPT;
           HumanMessage ("Context:" +:+ nl +:+ context +:+ nl +:+ nl +:+ "Question: " +:+ query)] in
        let w := set_llm_calls (λ calls, calls ++ [prompt]) w in
        let stream := ChatOpenAI_stream prompt in
        (event "citations" (JArr citations_data)
           :: token_events stream.1
           ++ [match stream.2 with
               | None => event "done" (JStr "")
               | Some msg => event "error" (JStr msg)
               end], w)
    end.

End Streaming.

(** ** The first script, [app.py] *)

Module App.
Section App.
Context `{B : Backend}.

(** [create_vector_db(chunks)] of [app.py]: the chunks go into the
    collection as the splitter made them. *)
Definition create_vector_db (chunks : list Document) : M unit :=
  if embed_documents (page_content <$> chunks)
  then modify (set_chroma_store (λ store, store ++ chunks))
  else raise (ServiceError "OpenAIEmbeddings failed").

(** [ask_question(query, vectordb, k)] of [app.py]. *)
Definition ask_question (query : string) (k : Z) : M (string * list Document) :=
  docs ← search query k;
  let context := join (nl +:+ nl) (page_content <$> docs) in
  let prompt :=
    [SystemMessage "You are a legal contract analysis assistant. Use ONLY the provided context.";
     HumanMessage ("Context:" +:+ nl +:+ context +:+ nl +:+ nl +:+ "Question: " +:+ query)] in
  answer ← llm None prompt;
  mret (answer, docs).

(** The system prompt of [extract_contract_fields], by its first sentence. *)
Definition EXTRACT_SYSTEM_PROMPT : string :=
  "Extract structured contract fields in JSON with keys:".

(** [extract_contract_fields(full_text)] of [app.py]: the reply as text. *)
Definition extract_contract_fields (full_text : string) : M string :=
  llm None [SystemMessage EXTRACT_SYSTEM_PROMPT; HumanMessage full_text].

(** The dictionary [ingest_pdf] returns. *)
Record IngestResult := { chunks : Z; fields : string }.

(** [ingest_pdf(file_path)] of [app.py], on a file of the upload store. *)
Definition ingest_pdf (file_path : string) : M IngestResult :=
  docs ← load_pdf file_path;
  let chunks := chunk_documents docs 1000 200 in
  create_vector_db chunks;;
  let full_text := join nl (page_content <$> docs) in
  fields_json ← extract_contract_fields full_text;
  mret {| chunks := len chunks; fields := fields_json |}.

End App.
End App.

(** ** Test doubles *)

(** The stubbed services of a contract test: a PDF has one page per byte and
    one window per page, embeddings always succeed, the similarity search
    returns the oldest [k] windows of the collection, and the chat model
    gives the same [reply] to every prompt. *)
Module Stub.

Definition page (path : string) (i : nat) (b : Byte.byte) : Document :=
  {| page_content := "page " +:+ pretty i;
     metadata := <["source" := JStr path]> (<["page" := JInt (Z.of_nat i)]> ∅) |}.

(** [json.loads] on the three replies the stubbed chat model is given. *)
Definition loads (s : string) : option json :=
  if String.eqb s "[]" then Some (JArr [])
  else if String.eqb s "{}" then Some (JObj ∅)
  else None.

Definition validate_fields (kwargs : dict) : option ContractFields.t :=
  if decide (kwargs = ∅) then Some ContractFields_default else None.

Definition backend (reply : string) : Backend :=
  {| uuid4 n := "doc-" +:+ pretty n;
     datetime_now n := "2024-05-01T10:00:0" +:+ pretty n;
     PyPDFLoader_load path bytes :=
       match bytes with [] => None | _ => Some (imap (page path) bytes) end;
     split_documents chunk_size chunk_overlap documents := documents;
     embed_documents texts := true;
     similarity_search store query k := Some (take (Z.to_nat k) store);
     ChatOpenAI temperature prompt := Some reply;
     json_loads := loads;
     ContractFields_validate := validate_fields;
     RiskFinding_validate kwargs := None;
     coerce_str v := None;
     coerce_int v := None |}.

(** The service just started on empty directories. *)
Definition fresh : World :=
  {| metadata_dir := ∅; upload_dir := ∅; chroma_store := [];
     document_registry := ∅;
     metrics := {| total_ingestions := 0; total_extractions := 0;
                   total_questions := 0; total_audits := 0; total_streams := 0 |};
     uuid_draws := 0; clock_reads := 0; llm_calls := [] |}.

Definition pdf (name : string) (pages : nat) : UploadFile :=
  {| filename := name; file_bytes := replicate pages Byte.x25 |}.

(** A chat model that answers in prose. *)
Definition answers : Backend := backend "The governing law is that of Delaware.".

(** Two contracts ingested on a fresh service: the collection holds the nine
    windows of [doc-0] followed by the three windows of [doc-1]. *)
Definition two_contracts : World :=
  (@ingest_contracts answers [pdf "a.pdf" 9; pdf "b.pdf" 3] fresh).2.

Definition ask (document_id : string) (k : Z) : AskRequest.t :=
  AskRequest.mk "What is the governing law?" (Some [document_id]) k.


(** A chat model whose reply is not JSON, and one whose reply is JSON but
    not an object. *)
Definition babbles : Backend := backend "Sure! Here are the fields you asked for".
Definition replies_array : Backend := backend "[]".


End Stub.

(** ** Reasoning about handlers *)

Ltac unfold_M :=
  unfold mbind, M_bind, mret, M_ret, bind, ret, raise, gets, modify, try_except in *.

Section Monad_lemmas.
Context {A R : Type}.
Implicit Types (m : M A) (f : A → M R).

Lemma bind_Return m f w a w1 :
  m w = (Return a, w1) → (m ≫= f) w = f a w1.
Proof. intros Hm. unfold_M. by rewrite Hm. Qed.

Lemma bind_Raise m f w e w1 :
  m w = (Raise e, w1) → (m ≫= f) w = (Raise e, w1).
Proof. intros Hm. unfold_M. by rewrite Hm. Qed.

Lemma bind_Return_inv m f w r w' :
  (m ≫= f) w = (Return r, w') →
  ∃ a w1, m w = (Return a, w1) ∧ f a w1 = (Return r, w').
Proof.
  unfold_M. destruct (m w) as [[a|e] w1]; [eauto | discriminate].
Qed.

Lemma bind_Raise_inv m f w e w' :
  (m ≫= f) w = (Raise e, w') →
  m w = (Raise e, w') ∨ ∃ a w1, m w = (Return a, w1) ∧ f a w1 = (Raise e, w').
Proof.
  unfold_M. destruct (m w) as [[a|e1] w1]; [eauto | intros [= -> ->]; eauto].
Qed.
End Monad_lemmas.

Lemma try_except_Return_inv {A} (body : M A) handler w a w' :
  try_except body handler w = (Return a, w') →
  body w = (Return a, w') ∨ ∃ e w1, body w = (Raise e, w1) ∧ handler e w1 = (Return a, w').
Proof.
  unfold try_except. destruct (body w) as [[a1|e] w1]; [intros [= -> ->] |]; eauto.
Qed.

Section Properties.
Context `{B : Backend}.

Lemma http_or_500_Return_inv {A} prefix (body : M A) w a w' :
  http_or_500 prefix body w = (Return a, w') → body w = (Return a, w').
Proof.
  unfold http_or_500. intros [H | (e & w1 & _ & H)]%try_except_Return_inv; [done |].
  by destruct (is_HTTPException e).
Qed.

Lemma http_or_500_Return {A} prefix (body : M A) w a w' :
  body w = (Return a, w') → http_or_500 prefix body w = (Return a, w').
Proof. intros H. unfold http_or_500, try_except. by rewrite H. Qed.


(** *** Retrieval *)

Definition allowed (document_ids : list string) (doc : Document) : Prop :=
  py_in (metadata doc !! "document_id") document_ids.

#[global] Instance allowed_dec document_ids doc : Decision (allowed document_ids doc).
Proof. unfold allowed. apply _. Defined.

Lemma filter_loop_spec document_ids k all_docs docs :
  1 ≤ k → len docs < k →
  filter_loop document_ids k all_docs docs
  = take (Z.to_nat k) (docs ++ filter (allowed document_ids) all_docs).
Proof.
  intros Hk. revert docs. unfold len.
  induction all_docs as [|doc rest IH]; intros docs Hlen; simpl.
  - rewrite app_nil_r, take_ge; [done | lia].
  - rewrite filter_cons.
    destruct (decide (allowed document_ids doc)) as [Hin | Hin]; unfold allowed in Hin;
      destruct (py_in (metadata doc !! "document_id") document_ids); try done;
      [| by apply IH].
    replace (docs ++ doc :: filter (allowed document_ids) rest)
      with ((docs ++ [doc]) ++ filter (allowed document_ids) rest)
      by (by rewrite <- app_assoc).
    unfold len.
    destruct (Z.geb_spec (Z.of_nat (length (docs ++ [doc]))) k) as [Hge | Hlt].
    + rewrite length_app in Hge. simpl in Hge.
      rewrite take_app_le by (rewrite length_app; simpl; lia).
      rewrite take_ge; [done | rewrite length_app; simpl; lia].
    + apply IH. lia.
Qed.

Lemma filter_loop_allowed document_ids k all_docs docs :
  Forall (allowed document_ids) docs →
  Forall (allowed document_ids) (filter_loop document_ids k all_docs docs).
Proof.
  revert docs. induction all_docs as [|doc rest IH]; intros docs Hdocs; simpl; [done |].
  destruct (py_in (metadata doc !! "document_id") document_ids) eqn:Hin; [| by apply IH].
  assert (Forall (allowed document_ids) (docs ++ [doc])) as Hdocs'.
  { apply Forall_app. split; [done |]. apply Forall_singleton. unfold allowed. by rewrite Hin. }
  destruct (len (docs ++ [doc]) >=? k); [done | by apply IH].
Qed.

Lemma search_run query k w :
  search query k w
  = (match similarity_search (chroma_store w) query k with
     | Some docs => Return docs
     | None => Raise (ServiceError "similarity_search failed")
     end, w).
Proof.
  unfold search. unfold_M. by destruct (similarity_search (chroma_store w) query k).
Qed.

Lemma retrieve_world query k document_ids w o w' :
  retrieve query k document_ids w = (o, w') → w' = w.
Proof.
  unfold retrieve. destruct document_ids as [[|doc_id rest]|].
  - rewrite search_run. by intros [= _ <-].
  - unfold mbind, M_bind, bind. rewrite search_run.
    destruct (similarity_search (chroma_store w) query (k * 5)); unfold_M; by intros [= _ <-].
  - rewrite search_run. by intros [= _ <-].
Qed.

(** With an allow-list the retrieval asks the index for [k * 5] documents
    and keeps the first [k] allowed ones. *)
Lemma retrieve_allow_list query k document_ids w docs w' :
  document_ids ≠ [] → 1 ≤ k →
  retrieve query k (Some document_ids) w = (Return docs, w') →
  ∃ all_docs,
    similarity_search (chroma_store w) query (k * 5) = Some all_docs ∧
    docs = take (Z.to_nat k) (filter (allowed document_ids) all_docs).
Proof.
  intros Hne Hk. unfold retrieve. destruct document_ids as [|doc_id rest]; [done |].
  intros (all_docs & w1 & Hsearch & Hret)%bind_Return_inv.
  rewrite search_run in Hsearch.
  destruct (similarity_search (chroma_store w) query (k * 5)) as [found|]; [| done].
  injection Hsearch as <- <-. unfold_M. injection Hret as <- <-.
  exists found. split; [done |].
  by rewrite filter_loop_spec by (unfold len; simpl; lia).
Qed.

Definition known (w : World) (doc_id : string) : Prop :=
  is_Some (metadata_dir w !! metadata_path doc_id).

Lemma validate_document_ids_world document_ids w o w' :
  validate_document_ids document_ids w = (o, w') → w' = w.
Proof.
  induction document_ids as [|doc_id rest IH]; simpl.
  - unfold_M. by intros [= _ <-].
  - unfold mbind, M_bind, bind, gets.
    destruct (bool_decide (is_Some (metadata_dir w !! metadata_path doc_id))); [done |].
    unfold raise. by intros [= _ <-].
Qed.

Lemma validate_document_ids_known document_ids w :
  Forall (known w) document_ids →
  validate_document_ids document_ids w = (Return tt, w).
Proof.
  induction 1 as [|doc_id rest Hid _ IH]; simpl; [done |].
  unfold mbind, M_bind, bind, gets. by rewrite bool_decide_eq_true_2.
Qed.

(** *** Citations *)

Definition cited (doc : Document) (c : Citation.t) : Prop := cite doc = Return c.

(** A citation takes the [document_id] its document is tagged with. *)
Lemma cited_document_id doc c s :
  cited doc c → metadata doc !! "document_id" = Some (JStr s) →
  Citation.document_id c = s.
Proof.
  unfold cited, cite. intros Hc Hmd. rewrite Hmd in Hc. simpl in Hc.
  destruct (pydantic_optional_int _); simpl in Hc; [| done].
  by injection Hc as <-.
Qed.

Lemma mapM_Return_inv {A R} (f : A → outcome R) xs rs :
  mapM f xs = Return rs → Forall2 (λ x r, f x = Return r) xs rs.
Proof.
  revert rs. induction xs as [|x xs IH]; intros rs; simpl.
  - intros [= <-]. constructor.
  - destruct (f x) as [r|e] eqn:Hx; simpl; [| done].
    destruct (mapM f xs) as [rs'|e]; simpl; [| done].
    intros [= <-]. constructor; [done | by apply IH].
Qed.

(** *** The [/ask] handler *)

Lemma llm_run temperature prompt w :
  llm temperature prompt w
  = (match ChatOpenAI temperature prompt with
     | Some content => Return content
     | None => Raise (ServiceError "ChatOpenAI failed")
     end, set_llm_calls (λ calls, calls ++ [prompt]) w).
Proof. unfold llm. unfold_M. by destruct (ChatOpenAI temperature prompt). Qed.

(** The documents [ask_question] returns are the retrieved ones. *)
Lemma ask_question_Return_inv query k document_ids w answer docs w1 :
  ask_question query k document_ids w = (Return (answer, docs), w1) →
  retrieve query k document_ids w = (Return docs, w).
Proof.
  unfold ask_question.
  intros (retrieved & w0 & Hret & Hrest)%bind_Return_inv.
  pose proof (retrieve_world _ _ _ _ _ _ Hret) as ->.
  destruct retrieved as [|doc rest].
  - unfold_M. by injection Hrest as _ <- _.
  - apply bind_Return_inv in Hrest as (content & w2 & _ & Hrest).
    unfold_M. by injection Hrest as _ <- _.
Qed.

Lemma ask_question_empty query k document_ids w :
  retrieve query k document_ids w = (Return [], w) →
  ask_question query k document_ids w = (Return (NO_RELEVANT_INFORMATION, []), w).
Proof. intros Hret. unfold ask_question. by rewrite (bind_Return _ _ _ _ _ Hret). Qed.

(** The allow-list check of [ask_question_api], as one step. *)
Definition check_allow_list (document_ids : option (list string)) : M unit :=
  match document_ids with
  | Some ((_ :: _) as document_ids) => validate_document_ids document_ids
  | _ => mret tt
  end.

Lemma check_allow_list_world document_ids w o w' :
  check_allow_list document_ids w = (o, w') → w' = w.
Proof.
  unfold check_allow_list. destruct document_ids as [[|doc_id rest]|];
    [by intros [= _ <-] | apply validate_document_ids_world | by intros [= _ <-]].
Qed.

Lemma check_allow_list_known document_ids w :
  (∀ ids, document_ids = Some ids → Forall (known w) ids) →
  check_allow_list document_ids w = (Return tt, w).
Proof.
  intros Hknown. unfold check_allow_list.
  destruct document_ids as [[|doc_id rest]|]; [done | | done].
  by apply validate_document_ids_known, Hknown.
Qed.

Lemma ask_question_api_Return_inv request w response w' :
  ask_question_api request w = (Return response, w') →
  ∃ docs w1,
    ask_question (AskRequest.question request) (AskRequest.k request)
      (AskRequest.document_ids request) w
    = (Return (AskResponse.answer response, docs), w1) ∧
    Forall2 cited docs (AskResponse.citations response) ∧
    AskResponse.question response = AskRequest.question request ∧
    w' = set_metrics (add_questions 1) w1.
Proof.
  unfold ask_question_api. intros Hbody%http_or_500_Return_inv.
  apply bind_Return_inv in Hbody as ([] & w0 & Hcheck & Hbody).
  pose proof (check_allow_list_world _ _ _ _ Hcheck) as ->.
  apply bind_Return_inv in Hbody as ([answer docs] & w1 & Hask & Hbody).
  apply bind_Return_inv in Hbody as (citations & w2 & Hcite & Hbody).
  unfold lift in Hcite. injection Hcite as Hcite <-.
  apply mapM_Return_inv in Hcite.
  unfold_M. injection Hbody as <- <-. by exists docs, w1.
Qed.

End Properties.

(** ** Question answering *)

(** C1: when [/ask] is given a non-empty [document_ids] allow-list, every
    citation of the response carries a [document_id] of that list. *)
Theorem ask_citations_in_allow_list `{B : Backend} request w document_ids response w' :
  AskRequest.document_ids request = Some document_ids →
  document_ids ≠ [] →
  ask_question_api request w = (Return response, w') →
  Forall (λ c, Citation.document_id c ∈ document_ids) (AskResponse.citations response).
Proof.
  intros Hids Hne (docs & w1 & Hask & Hcited & _)%ask_question_api_Return_inv.
  apply ask_question_Return_inv in Hask. rewrite Hids in Hask.
  assert (Forall (allowed document_ids) docs) as Hallowed.
  { unfold retrieve in Hask. destruct document_ids as [|doc_id rest]; [done |].
    apply bind_Return_inv in Hask as (all_docs & w0 & _ & Hret).
    unfold_M. injection Hret as <- _. by apply filter_loop_allowed. }
  clear Hask. induction Hcited as [|doc c docs citations Hc _ IH]; [done |].
  apply Forall_cons in Hallowed as [Hdoc Hallowed].
  constructor; [| by apply IH].
  unfold allowed, py_in in Hdoc.
  destruct (metadata doc !! "document_id") as [[| | | |s| |]|] eqn:Hmd; try done.
  apply bool_decide_unpack in Hdoc.
  by rewrite (cited_document_id _ _ _ Hc Hmd).
Qed.

Lemma ask_citations_in_allow_list_witness :
  ∃ response w',
    @ask_question_api Stub.answers (Stub.ask "doc-1" 2) Stub.two_contracts
    = (Return response, w') ∧
    Forall (λ c, Citation.document_id c ∈ ["doc-1"]) (AskResponse.citations response).
Proof.
  eexists _, _. split; [vm_compute; reflexivity |].
  eapply (@ask_citations_in_allow_list Stub.answers (Stub.ask "doc-1" 2)
            Stub.two_contracts ["doc-1"]);
    [reflexivity | discriminate | vm_compute; reflexivity].
Defined.

(** C4: with a non-empty allow-list and bound [k], [/ask] asks the
    similarity search for [k * 5] results, keeps those whose [document_id] is
    in the allow-list, in search order, cut to the first [k], and cites
    exactly these; and there is a collection holding [k] allowed windows for
    which fewer than [k] citations come back. *)
Theorem ask_overfetch_filter_truncate :
  (∀ (B : Backend) request w document_ids response w',
     AskRequest.document_ids request = Some document_ids →
     document_ids ≠ [] →
     1 ≤ AskRequest.k request →
     ask_question_api request w = (Return response, w') →
     ∃ all_docs,
       similarity_search (chroma_store w) (AskRequest.question request)
         (AskRequest.k request * 5) = Some all_docs ∧
       Forall2 cited
         (take (Z.to_nat (AskRequest.k request)) (filter (allowed document_ids) all_docs))
         (AskResponse.citations response) ∧
       len (AskResponse.citations response) ≤ AskRequest.k request)
  ∧
  (∃ (B : Backend) request w document_ids response w',
     AskRequest.document_ids request = Some document_ids ∧
     document_ids ≠ [] ∧
     1 ≤ AskRequest.k request ≤ 10 ∧
     ask_question_api request w = (Return response, w') ∧
     AskRequest.k request ≤ len (filter (allowed document_ids) (chroma_store w)) ∧
     len (AskResponse.citations response) < AskRequest.k request).
Proof.
  split.
  - intros B request w document_ids response w' Hids Hne Hk
      (docs & w1 & Hask & Hcited & _)%ask_question_api_Return_inv.
    apply ask_question_Return_inv in Hask. rewrite Hids in Hask.
    apply retrieve_allow_list in Hask as (all_docs & Hsearch & ->); [| done..].
    exists all_docs. split_and!; [done | done |].
    apply Forall2_length in Hcited. unfold len. rewrite <- Hcited, length_take. lia.
  - exists Stub.answers, (Stub.ask "doc-1" 2), Stub.two_contracts, ["doc-1"].
    eexists _, _. split_and!;
      [reflexivity | discriminate | done | done | vm_compute; reflexivity
      | vm_compute; discriminate | vm_compute; reflexivity].
Qed.

Lemma ask_overfetch_filter_truncate_witness :
  ∃ response w',
    @ask_question_api Stub.answers (Stub.ask "doc-1" 2) Stub.two_contracts
    = (Return response, w') ∧
    ∃ all_docs,
      @similarity_search Stub.answers (chroma_store Stub.two_contracts)
        "What is the governing law?" (2 * 5) = Some all_docs ∧
      Forall2 (@cited Stub.answers)
        (take (Z.to_nat 2) (filter (allowed ["doc-1"]) all_docs))
        (AskResponse.citations response) ∧
      len (AskResponse.citations response) ≤ 2.
Proof.
  eexists _, _. split; [vm_compute; reflexivity |].
  eapply (proj1 ask_overfetch_filter_truncate Stub.answers (Stub.ask "doc-1" 2)
            Stub.two_contracts ["doc-1"]);
    [reflexivity | discriminate | simpl; lia | vm_compute; reflexivity].
Defined.

(** C5: when the retrieval of an [/ask] request, after any allow-list
    filtering, yields no chunk, the answer is the fixed text, the citation
    list is empty, and the chat model has not been called. *)
Theorem ask_empty_retrieval `{B : Backend} request w :
  (∀ ids, AskRequest.document_ids request = Some ids → Forall (known w) ids) →
  (retrieve (AskRequest.question request) (AskRequest.k request)
     (AskRequest.document_ids request) w).1 = Return [] →
  ask_question (AskRequest.question request) (AskRequest.k request)
    (AskRequest.document_ids request) w
  = (Return (NO_RELEVANT_INFORMATION, []), w) ∧
  ask_question_api request w
  = (Return (AskResponse.mk (AskRequest.question request) NO_RELEVANT_INFORMATION []),
     set_metrics (add_questions 1) w) ∧
  llm_calls (ask_question_api request w).2 = llm_calls w.
Proof.
  intros Hknown Hret.
  destruct (retrieve _ _ _ w) as [o w1] eqn:Hrun. simpl in Hret. subst o.
  pose proof (retrieve_world _ _ _ _ _ _ Hrun) as ->.
  pose proof (ask_question_empty _ _ _ _ Hrun) as Hask.
  assert (ask_question_api request w
          = (Return (AskResponse.mk (AskRequest.question request) NO_RELEVANT_INFORMATION []),
             set_metrics (add_questions 1) w)) as Hapi.
  { unfold ask_question_api. apply http_or_500_Return.
    rewrite (bind_Return _ _ _ _ _ (check_allow_list_known _ _ Hknown)).
    by rewrite (bind_Return _ _ _ _ _ Hask). }
  split_and!; [done | done | by rewrite Hapi].
Qed.

Lemma ask_empty_retrieval_witness :
  @ask_question Stub.answers "What is the governing law?" 1 (Some ["doc-1"]) Stub.two_contracts
  = (Return (NO_RELEVANT_INFORMATION, []), Stub.two_contracts) ∧
  @ask_question_api Stub.answers (Stub.ask "doc-1" 1) Stub.two_contracts
  = (Return (AskResponse.mk "What is the governing law?" NO_RELEVANT_INFORMATION []),
     set_metrics (add_questions 1) Stub.two_contracts) ∧
  llm_calls (@ask_question_api Stub.answers (Stub.ask "doc-1" 1) Stub.two_contracts).2
  = llm_calls Stub.two_contracts.
Proof.
  apply (@ask_empty_retrieval Stub.answers (Stub.ask "doc-1" 1) Stub.two_contracts).
  - intros ids [= <-]. apply Forall_singleton. unfold known. vm_compute. eauto.
  - vm_compute. reflexivity.
Defined.

(** ** Stored documents *)

Section Documents.
Context `{B : Backend}.

Lemma load_document_metadata_run document_id w :
  load_document_metadata document_id w
  = (match metadata_dir w !! metadata_path document_id with
     | Some metadata => Return metadata
     | None => Raise (HTTPException 404 ("Document " +:+ document_id +:+ " not found"))
     end, w).
Proof.
  unfold load_document_metadata. unfold_M.
  by destruct (metadata_dir w !! metadata_path document_id).
Qed.

Lemma backing_pdf_world document_id metadata w o w' :
  backing_pdf document_id metadata w = (o, w') → w' = w.
Proof.
  unfold backing_pdf. unfold_M.
  destruct (metadata !! "file_path") as [file_path|]; [| by intros [= _ <-]].
  destruct (negb (truthy file_path)); [by intros [= _ <-] |].
  destruct file_path; try by intros [= _ <-].
  by destruct (bool_decide _); intros [= _ <-].
Qed.


Lemma backing_pdf_present document_id metadata path w :
  metadata !! "file_path" = Some (JStr path) →
  path ≠ "" →
  is_Some (upload_dir w !! path) →
  backing_pdf document_id metadata w = (Return path, w).
Proof.
  intros Hpath Hne Hsome. unfold backing_pdf. rewrite Hpath. unfold_M. simpl.
  destruct (String.eqb_spec path ""); [done |]. simpl.
  by rewrite bool_decide_eq_true_2.
Qed.

Lemma load_pdf_run file_path w :
  load_pdf file_path w
  = (match upload_dir w !! file_path with
     | None => Raise (ServiceError ("File path " +:+ file_path +:+ " is not a valid file"))
     | Some bytes =>
         match PyPDFLoader_load file_path bytes with
         | None => Raise (ServiceError "PyPDFLoader failed")
         | Some pages => Return pages
         end
     end, w).
Proof.
  unfold load_pdf. unfold_M. destruct (upload_dir w !! file_path) as [bytes|]; [| done].
  by destruct (PyPDFLoader_load file_path bytes).
Qed.

Lemma now_isoformat_run w :
  now_isoformat w = (Return (datetime_now (clock_reads w)), set_clock_reads S w).
Proof. reflexivity. Qed.

(** What [extract_contract_fields] makes of the model's reply: only a reply
    that is not JSON falls back to the defaults. *)
Definition fields_of_reply (content : string) : outcome ContractFields.t :=
  match parse_fields content with
  | Return fields => Return fields
  | Raise e => if is_JSONDecodeError e then Return ContractFields_default else Raise e
  end.

Lemma extract_contract_fields_run full_text w :
  extract_contract_fields full_text w
  = (match ChatOpenAI (Some 0) (extract_messages full_text) with
     | Some content => fields_of_reply content
     | None => Raise (ServiceError "ChatOpenAI failed")
     end, set_llm_calls (λ calls, calls ++ [extract_messages full_text]) w).
Proof.
  unfold extract_contract_fields, fields_of_reply. unfold mbind, M_bind, bind.
  rewrite llm_run. destruct (ChatOpenAI _ _) as [content|]; [| done].
  unfold try_except, lift. destruct (parse_fields content) as [fields|e]; [done |].
  by destruct (is_JSONDecodeError e).
Qed.

(** What [audit_contract_risks] makes of the model's reply: every failure of
    the parse gives the empty list. *)
Definition findings_of_reply (content : string) : list RiskFinding.t :=
  match parse_findings content with
  | Return findings => findings
  | Raise _ => []
  end.

Lemma audit_contract_risks_run full_text w :
  audit_contract_risks full_text w
  = (match ChatOpenAI (Some 0) (audit_messages full_text) with
     | Some content => Return (findings_of_reply content)
     | None => Raise (ServiceError "ChatOpenAI failed")
     end, set_llm_calls (λ calls, calls ++ [audit_messages full_text]) w).
Proof.
  unfold audit_contract_risks, findings_of_reply. unfold mbind, M_bind, bind.
  rewrite llm_run. destruct (ChatOpenAI _ _) as [content|]; [| done].
  unfold try_except, lift. by destruct (parse_findings content).
Qed.

Lemma parse_fields_not_http content e :
  parse_fields content = Raise e → is_HTTPException e = false.
Proof.
  unfold parse_fields, loads. destruct (json_loads content) as [v|]; simpl; [| by intros [= <-]].
  unfold ContractFields_init.
  destruct v; try (by intros [= <-]).
  destruct (ContractFields_validate kvs); [done | by intros [= <-]].
Qed.

(** *** The [/extract] handler *)

(** The record [extract_fields] writes back. *)
Definition with_extraction (fields : ContractFields.t) (date : string) (metadata : dict) : dict :=
  <["extraction_date" := JStr date]> (<["extracted_fields" := ContractFields_dict fields]> metadata).

(** Every outcome of [/extract] is an HTTP error that left the metadata
    directory as it was, or a response together with one rewritten record. *)
Lemma extract_fields_cases request w o w' :
  extract_fields request w = (o, w') →
  (∃ status_code detail,
     o = Raise (HTTPException status_code detail) ∧ metadata_dir w' = metadata_dir w)
  ∨ (∃ metadata fields,
       o = Return (ExtractResponse.mk (ExtractRequest.document_id request) fields) ∧
       metadata_dir w !! metadata_path (ExtractRequest.document_id request) = Some metadata ∧
       metadata_dir w'
       = <[metadata_path (ExtractRequest.document_id request)
           := with_extraction fields (datetime_now (clock_reads w)) metadata]> (metadata_dir w)).
Proof.
  destruct request as [document_id]. unfold extract_fields, http_or_500, try_except. simpl.
  unfold mbind, M_bind, bind, raise. rewrite load_document_metadata_run.
  destruct (metadata_dir w !! metadata_path document_id) as [metadata|] eqn:Hmeta;
    [| intros [= <- <-]; left; eauto].
  destruct (backing_pdf document_id metadata w) as [[path|e] w1] eqn:Hpdf;
    apply backing_pdf_world in Hpdf as ->;
    [| intros Heq; left; destruct e; simpl in Heq; injection Heq as <- <-; eauto].
  rewrite load_pdf_run.
  destruct (upload_dir w !! path) as [bytes|]; [| intros [= <- <-]; left; simpl; eauto].
  destruct (PyPDFLoader_load path bytes) as [docs|]; [| intros [= <- <-]; left; simpl; eauto].
  rewrite extract_contract_fields_run.
  destruct (ChatOpenAI _ _) as [content|]; [| intros [= <- <-]; left; simpl; eauto].
  destruct (fields_of_reply content) as [fields|e];
    [| intros Heq; left; destruct e; simpl in Heq; injection Heq as <- <-; eauto].
  intros [= <- <-]. right. exists metadata, fields. by split_and!.
Qed.

(** With the document registered, its PDF in place and readable, and the
    chat model answering [content], the outcome of [/extract] is decided by
    how [content] parses. *)
Lemma extract_fields_reply document_id w metadata path bytes docs content :
  metadata_dir w !! metadata_path document_id = Some metadata →
  metadata !! "file_path" = Some (JStr path) →
  path ≠ "" →
  upload_dir w !! path = Some bytes →
  PyPDFLoader_load path bytes = Some docs →
  ChatOpenAI (Some 0) (extract_messages (join nl (page_content <$> docs))) = Some content →
  (extract_fields (ExtractRequest.mk document_id) w).1
  = match parse_fields content with
    | Return fields => Return (ExtractResponse.mk document_id fields)
    | Raise e =>
        if is_JSONDecodeError e
        then Return (ExtractResponse.mk document_id ContractFields_default)
        else Raise (HTTPException 500 ("Error extracting fields: " +:+ str e))
    end.
Proof.
  intros Hmeta Hpath Hne Hbytes Hdocs Hllm.
  unfold extract_fields, http_or_500, try_except. simpl.
  unfold mbind, M_bind, bind. rewrite load_document_metadata_run, Hmeta.
  rewrite (backing_pdf_present _ _ _ _ Hpath Hne) by (by rewrite Hbytes).
  rewrite load_pdf_run, Hbytes, Hdocs.
  rewrite extract_contract_fields_run, Hllm. unfold fields_of_reply.
  destruct (parse_fields content) as [fields|e] eqn:Hparse; [done |].
  destruct (is_JSONDecodeError e); [done |].
  by rewrite (parse_fields_not_http _ _ Hparse).
Qed.


(** *** The [/audit] handler *)

(** The record [audit_contract] writes back. *)
Definition with_audit (findings : list RiskFinding.t) (date : string) (metadata : dict) : dict :=
  <["audit_results" :=
      JObj (<["audit_date" := JStr date]>
           (<["total_risks" := JInt (len findings)]>
           (<["findings" := JArr (RiskFinding_dict <$> findings)]> ∅)))]> metadata.

Lemma audit_contract_cases request w o w' :
  audit_contract request w = (o, w') →
  (∃ status_code detail,
     o = Raise (HTTPException status_code detail) ∧ metadata_dir w' = metadata_dir w)
  ∨ (∃ metadata findings,
       o = Return (AuditResponse.mk (AuditRequest.document_id request) (len findings)
                     findings (datetime_now (clock_reads w))) ∧
       metadata_dir w !! metadata_path (AuditRequest.document_id request) = Some metadata ∧
       metadata_dir w'
       = <[metadata_path (AuditRequest.document_id request)
           := with_audit findings (datetime_now (clock_reads w)) metadata]> (metadata_dir w)).
Proof.
  destruct request as [document_id]. unfold audit_contract, http_or_500, try_except. simpl.
  unfold mbind, M_bind, bind, raise. rewrite load_document_metadata_run.
  destruct (metadata_dir w !! metadata_path document_id) as [metadata|] eqn:Hmeta;
    [| intros [= <- <-]; left; eauto].
  destruct (backing_pdf document_id metadata w) as [[path|e] w1] eqn:Hpdf;
    apply backing_pdf_world in Hpdf as ->;
    [| intros Heq; left; destruct e; simpl in Heq; injection Heq as <- <-; eauto].
  rewrite load_pdf_run.
  destruct (upload_dir w !! path) as [bytes|]; [| intros [= <- <-]; left; simpl; eauto].
  destruct (PyPDFLoader_load path bytes) as [docs|]; [| intros [= <- <-]; left; simpl; eauto].
  rewrite audit_contract_risks_run.
  destruct (ChatOpenAI _ _) as [content|]; [| intros [= <- <-]; left; simpl; eauto].
  intros [= <- <-]. right. exists metadata, (findings_of_reply content). by split_and!.
Qed.

(** With the document registered, its PDF in place and readable, and the
    chat model answering [content], [/audit] succeeds whatever [content] is. *)
Lemma audit_contract_reply document_id w metadata path bytes docs content :
  metadata_dir w !! metadata_path document_id = Some metadata →
  metadata !! "file_path" = Some (JStr path) →
  path ≠ "" →
  upload_dir w !! path = Some bytes →
  PyPDFLoader_load path bytes = Some docs →
  ChatOpenAI (Some 0) (audit_messages (join nl (page_content <$> docs))) = Some content →
  (audit_contract (AuditRequest.mk document_id) w).1
  = Return (AuditResponse.mk document_id (len (findings_of_reply content))
              (findings_of_reply content) (datetime_now (clock_reads w))).
Proof.
  intros Hmeta Hpath Hne Hbytes Hdocs Hllm.
  unfold audit_contract, http_or_500, try_except. simpl.
  unfold mbind, M_bind, bind. rewrite load_document_metadata_run, Hmeta.
  rewrite (backing_pdf_present _ _ _ _ Hpath Hne) by (by rewrite Hbytes).
  rewrite load_pdf_run, Hbytes, Hdocs.
  by rewrite audit_contract_risks_run, Hllm.
Qed.


End Documents.



(** C2, as the code has it: when the model's reply is not JSON, [/extract]
    answers 200 with the all-default [ContractFields]; when the reply is JSON
    from which no [ContractFields] can be built, the error surfaces as a
    500. *)
Theorem extract_reply_not_json `{B : Backend} document_id w metadata path bytes docs content :
  metadata_dir w !! metadata_path document_id = Some metadata →
  metadata !! "file_path" = Some (JStr path) →
  path ≠ "" →
  upload_dir w !! path = Some bytes →
  PyPDFLoader_load path bytes = Some docs →
  ChatOpenAI (Some 0) (extract_messages (join nl (page_content <$> docs))) = Some content →
  (json_loads content = None →
     (extract_fields (ExtractRequest.mk document_id) w).1
     = Return (ExtractResponse.mk document_id ContractFields_default) ∧
     http_status (extract_fields (ExtractRequest.mk document_id) w).1 = 200)
  ∧
  (∀ v e, json_loads content = Some v → ContractFields_init v = Raise e →
     (extract_fields (ExtractRequest.mk document_id) w).1
     = Raise (HTTPException 500 ("Error extracting fields: " +:+ str e))).
Proof.
  intros Hmeta Hpath Hne Hbytes Hdocs Hllm.
  pose proof (extract_fields_reply _ _ _ _ _ _ _ Hmeta Hpath Hne Hbytes Hdocs Hllm) as Hrun.
  unfold parse_fields, loads in Hrun. split.
  - intros Hjson. rewrite Hjson in Hrun. simpl in Hrun. by rewrite Hrun.
  - intros v e Hjson Hinit. rewrite Hjson in Hrun. simpl in Hrun. rewrite Hinit in Hrun.
    assert (is_JSONDecodeError e = false) as Hnot.
    { unfold ContractFields_init in Hinit.
      destruct v; try (by injection Hinit as <-).
      destruct (ContractFields_validate kvs); [done | by injection Hinit as <-]. }
    by rewrite Hnot in Hrun.
Qed.

Lemma extract_reply_not_json_witness :
  (@extract_fields Stub.babbles (ExtractRequest.mk "doc-0") Stub.two_contracts).1
  = Return (ExtractResponse.mk "doc-0" ContractFields_default) ∧
  http_status (@extract_fields Stub.babbles (ExtractRequest.mk "doc-0") Stub.two_contracts).1
  = 200.
Proof.
  eapply (@extract_reply_not_json Stub.babbles "doc-0" Stub.two_contracts);
    [vm_compute; reflexivity | vm_compute; reflexivity | discriminate
    | vm_compute; reflexivity | vm_compute; reflexivity | reflexivity
    | vm_compute; reflexivity].
Defined.

(** C2 as stated fails: the reply [[]] is JSON, does not parse as the
    [ContractFields] schema, and [/extract] answers 500 instead of an empty
    structure. *)
Lemma extract_schema_failure_is_500 :
  @ChatOpenAI Stub.replies_array = (λ temperature prompt, Some "[]") ∧
  @parse_fields Stub.replies_array "[]"
  = Raise (TypeError "argument after ** must be a mapping") ∧
  (@extract_fields Stub.replies_array (ExtractRequest.mk "doc-0") Stub.two_contracts).1
  = Raise (HTTPException 500
             "Error extracting fields: argument after ** must be a mapping") ∧
  http_status (@extract_fields Stub.replies_array (ExtractRequest.mk "doc-0")
                 Stub.two_contracts).1 = 500.
Proof. split_and!; [reflexivity | vm_compute; reflexivity..]. Qed.

(** C8: when the model's reply to [/audit] does not parse, as JSON or as a
    list of [RiskFinding], the request succeeds with no findings and
    [total_risks = 0]. *)
Theorem audit_malformed_output `{B : Backend} document_id w metadata path bytes docs content e :
  metadata_dir w !! metadata_path document_id = Some metadata →
  metadata !! "file_path" = Some (JStr path) →
  path ≠ "" →
  upload_dir w !! path = Some bytes →
  PyPDFLoader_load path bytes = Some docs →
  ChatOpenAI (Some 0) (audit_messages (join nl (page_content <$> docs))) = Some content →
  parse_findings content = Raise e →
  (audit_contract (AuditRequest.mk document_id) w).1
  = Return (AuditResponse.mk document_id 0 [] (datetime_now (clock_reads w))) ∧
  http_status (audit_contract (AuditRequest.mk document_id) w).1 = 200.
Proof.
  intros Hmeta Hpath Hne Hbytes Hdocs Hllm Hparse.
  rewrite (audit_contract_reply _ _ _ _ _ _ _ Hmeta Hpath Hne Hbytes Hdocs Hllm).
  unfold findings_of_reply. by rewrite Hparse.
Qed.

Lemma audit_malformed_output_witness :
  (@audit_contract Stub.babbles (AuditRequest.mk "doc-0") Stub.two_contracts).1
  = Return (AuditResponse.mk "doc-0" 0 [] "2024-05-01T10:00:02") ∧
  http_status (@audit_contract Stub.babbles (AuditRequest.mk "doc-0") Stub.two_contracts).1
  = 200.
Proof.
  eapply (@audit_malformed_output Stub.babbles "doc-0" Stub.two_contracts);
    [vm_compute; reflexivity | vm_compute; reflexivity | discriminate
    | vm_compute; reflexivity | vm_compute; reflexivity | reflexivity
    | vm_compute; reflexivity].
Defined.

(** ** Ingestion *)

(** [sum(ns)] *)
Definition total (ns : list Z) : Z := foldr Z.add 0 ns.

Section Ingestion.
Context `{B : Backend}.


(** The record [ingest_contracts] writes for one file. *)
Definition ingested (document_id : string) (file : UploadFile) (docs : list Document)
    (upload_date : string) : dict :=
  <["document_id" := JStr document_id]>
  (<["filename" := JStr (filename file)]>
  (<["upload_date" := JStr upload_date]>
  (<["num_pages" := JInt (len docs)]>
  (<["num_chunks" := JInt (len (tag document_id <$> chunk_documents docs 1000 200))]>
  (<["file_path" := JStr (upload_path document_id (filename file))]>
  (<["full_text_preview" := JStr (slice_to 500 (join nl (page_content <$> docs)))]> ∅)))))).

Lemma ingest_file_not_pdf file w :
  endswith (filename file) ".pdf" = false →
  ingest_file file w
  = (Raise (HTTPException 400 ("File " +:+ filename file +:+ " is not a PDF")), w).
Proof. intros Hext. unfold ingest_file. by rewrite Hext. Qed.

(** Every outcome of the loop body: it raised and wrote no metadata, or it
    returned the next identifier and wrote that identifier's record. *)
Lemma ingest_file_cases file w o w' :
  ingest_file file w = (o, w') →
  (∃ e, o = Raise e ∧ metadata_dir w' = metadata_dir w)
  ∨ (∃ docs,
       endswith (filename file) ".pdf" = true ∧
       PyPDFLoader_load (upload_path (uuid4 (uuid_draws w)) (filename file)) (file_bytes file)
       = Some docs ∧
       o = Return (uuid4 (uuid_draws w), len (chunk_documents docs 1000 200)) ∧
       uuid_draws w' = S (uuid_draws w) ∧
       metadata_dir w'
       = <[metadata_path (uuid4 (uuid_draws w))
           := ingested (uuid4 (uuid_draws w)) file docs (datetime_now (clock_reads w))]>
           (metadata_dir w)).
Proof.
  unfold ingest_file.
  destruct (endswith (filename file) ".pdf") eqn:Hext; simpl;
    [| intros [= <- <-]; left; eauto].
  unfold mbind, M_bind, bind, gets, modify. rewrite load_pdf_run. simpl.
  rewrite lookup_insert_eq.
  destruct (PyPDFLoader_load _ _) as [docs|] eqn:Hdocs; [| intros [= <- <-]; left; eauto].
  unfold create_vector_db.
  destruct (embed_documents _); [| intros [= <- <-]; left; eauto].
  unfold mbind, M_bind, bind, modify, mret, M_ret, ret. simpl.
  intros [= <- <-]. right. exists docs. split_and!; try done.
  unfold len. by rewrite length_fmap.
Qed.


Lemma ingest_loop_not_pdf files file document_ids total_chunks w :
  file ∈ files → endswith (filename file) ".pdf" = false →
  ∃ e w', ingest_loop files document_ids total_chunks w = (Raise e, w').
Proof.
  intros Hin Hext. revert document_ids total_chunks w.
  induction files as [|first files IH]; intros document_ids total_chunks w;
    [by apply elem_of_nil in Hin |]. simpl.
  destruct (ingest_file first w) as [[r|e] w1] eqn:Hfirst.
  - rewrite (bind_Return _ _ _ _ _ Hfirst).
    apply elem_of_cons in Hin as [-> | Hin]; [| by apply IH].
    by rewrite ingest_file_not_pdf in Hfirst.
  - rewrite (bind_Raise _ _ _ _ _ Hfirst). eauto.
Qed.

End Ingestion.




(** C3, what the code does: a file whose name does not end in [.pdf] makes
    the loop body raise the 400 error before anything is written for it, but
    the [except Exception] clause around the loop catches that error, so the
    response carries status 500. *)
Theorem ingest_non_pdf_is_500 `{B : Backend} files file w :
  file ∈ files →
  endswith (filename file) ".pdf" = false →
  (∀ w0, ingest_file file w0
         = (Raise (HTTPException 400 ("File " +:+ filename file +:+ " is not a PDF")), w0)) ∧
  http_status (ingest_contracts files w).1 = 500 ∧
  ingest_contracts [file] w
  = (Raise (HTTPException 500
              ("Error during ingestion: 400: File " +:+ filename file +:+ " is not a PDF")), w).
Proof.
  intros Hin Hext. split_and!.
  - intros w0. by apply ingest_file_not_pdf.
  - unfold ingest_contracts. destruct files as [|first files]; [by apply elem_of_nil in Hin |].
    destruct (ingest_loop_not_pdf (first :: files) file [] 0 w Hin Hext) as (e & w1 & Hloop).
    unfold try_except. by rewrite (bind_Raise _ _ _ _ _ Hloop).
  - unfold ingest_contracts, try_except. simpl.
    unfold mbind, M_bind, bind. by rewrite (ingest_file_not_pdf _ _ Hext).
Qed.

Lemma ingest_non_pdf_is_500_witness :
  (∀ w0, @ingest_file Stub.answers (Stub.pdf "notes.txt" 1) w0
         = (Raise (HTTPException 400 "File notes.txt is not a PDF"), w0)) ∧
  http_status (@ingest_contracts Stub.answers [Stub.pdf "notes.txt" 1] Stub.fresh).1 = 500 ∧
  @ingest_contracts Stub.answers [Stub.pdf "notes.txt" 1] Stub.fresh
  = (Raise (HTTPException 500 "Error during ingestion: 400: File notes.txt is not a PDF"),
     Stub.fresh).
Proof.
  apply (@ingest_non_pdf_is_500 Stub.answers [Stub.pdf "notes.txt" 1]
           (Stub.pdf "notes.txt" 1) Stub.fresh).
  - apply list_elem_of_singleton. reflexivity.
  - vm_compute. reflexivity.
Defined.

(** ** Metadata records and metrics *)

Lemma rev_app_append s1 s2 acc :
  String.rev_app (s1 +:+ s2) acc = String.rev_app s2 (String.rev_app s1 acc).
Proof. revert acc. induction s1 as [|a s1 IH]; intros acc; simpl; [done | apply IH]. Qed.

(** A metadata file name is matched by the pattern [*.json]. *)
Lemma metadata_path_json document_id : endswith (metadata_path document_id) ".json" = true.
Proof.
  unfold endswith, metadata_path, String.rev. rewrite rev_app_append. simpl.
  by destruct (String.rev_app document_id "").
Qed.

(** The files [glob] lists are the entries of the directory whose name ends
    in [.json]. *)
Lemma glob_json_size (dir : gmap string dict) :
  length (glob_json dir) = size (filter (λ entry, endswith entry.1 ".json") dir).
Proof.
  unfold glob_json. induction dir as [|name record dir Hfresh IH] using map_ind.
  - by rewrite map_to_list_empty, map_filter_empty, map_size_empty.
  - rewrite map_to_list_insert by done. rewrite fmap_cons. cbn [fst].
    rewrite filter_cons, map_filter_insert. cbn [fst].
    destruct (decide (endswith name ".json")) as [Hjson | Hjson].
    + rewrite map_size_insert_None by (by rewrite map_lookup_filter_None; left).
      simpl. by rewrite <- IH.
    + by rewrite delete_id.
Qed.

Section Records.
Context `{B : Backend}.

Lemma get_metrics_run w :
  get_metrics w
  = (Return (MetricsResponse.mk (len (glob_json (metadata_dir w)))
               (total_ingestions (metrics w)) (total_extractions (metrics w))
               (total_questions (metrics w)) (total_audits (metrics w))), w).
Proof. reflexivity. Qed.

Lemma extract_fields_dom r w :
  dom (metadata_dir (extract_fields r w).2) = dom (metadata_dir w).
Proof.
  destruct (extract_fields r w) as [o w'] eqn:Hrun. simpl.
  apply extract_fields_cases in Hrun as [(? & ? & _ & ->) | (metadata & fields & _ & Hmeta & ->)];
    [done |].
  by apply dom_insert_lookup_L.
Qed.

Lemma audit_contract_dom r w :
  dom (metadata_dir (audit_contract r w).2) = dom (metadata_dir w).
Proof.
  destruct (audit_contract r w) as [o w'] eqn:Hrun. simpl.
  apply audit_contract_cases in Hrun as [(? & ? & _ & ->) | (metadata & fields & _ & Hmeta & ->)];
    [done |].
  by apply dom_insert_lookup_L.
Qed.

End Records.

(** C10: a successful [/extract] rewrites the stored record of its document
    in the keys [extracted_fields] and [extraction_date] only, a successful
    [/audit] in the key [audit_results] only; every other key of that record
    and every other file of the directory keep their values. *)
Theorem extract_audit_frame `{B : Backend} :
  (∀ request w response w',
     extract_fields request w = (Return response, w') →
     ∃ metadata metadata',
       metadata_dir w !! metadata_path (ExtractRequest.document_id request) = Some metadata ∧
       metadata_dir w' !! metadata_path (ExtractRequest.document_id request) = Some metadata' ∧
       (∀ key, key ≠ "extracted_fields" → key ≠ "extraction_date" →
               metadata' !! key = metadata !! key) ∧
       (∀ name, name ≠ metadata_path (ExtractRequest.document_id request) →
                metadata_dir w' !! name = metadata_dir w !! name))
  ∧
  (∀ request w response w',
     audit_contract request w = (Return response, w') →
     ∃ metadata metadata',
       metadata_dir w !! metadata_path (AuditRequest.document_id request) = Some metadata ∧
       metadata_dir w' !! metadata_path (AuditRequest.document_id request) = Some metadata' ∧
       (∀ key, key ≠ "audit_results" → metadata' !! key = metadata !! key) ∧
       (∀ name, name ≠ metadata_path (AuditRequest.document_id request) →
                metadata_dir w' !! name = metadata_dir w !! name)).
Proof.
  split; intros request w response w' Hrun.
  - apply extract_fields_cases in Hrun
      as [(? & ? & [=] & _) | (metadata & fields & _ & Hmeta & ->)].
    eexists metadata, _. split_and!; [done | apply lookup_insert_eq | |].
    + intros key Hfields Hdate. unfold with_extraction.
      by rewrite !lookup_insert_ne.
    + intros name Hname. by rewrite lookup_insert_ne.
  - apply audit_contract_cases in Hrun
      as [(? & ? & [=] & _) | (metadata & findings & _ & Hmeta & ->)].
    eexists metadata, _. split_and!; [done | apply lookup_insert_eq | |].
    + intros key Hkey. unfold with_audit. by rewrite lookup_insert_ne.
    + intros name Hname. by rewrite lookup_insert_ne.
Qed.

Lemma extract_audit_frame_witness :
  ∃ response w',
    @extract_fields Stub.babbles (ExtractRequest.mk "doc-0") Stub.two_contracts
    = (Return response, w') ∧
    ∃ metadata metadata',
      metadata_dir Stub.two_contracts !! metadata_path "doc-0" = Some metadata ∧
      metadata_dir w' !! metadata_path "doc-0" = Some metadata' ∧
      (∀ key, key ≠ "extracted_fields" → key ≠ "extraction_date" →
              metadata' !! key = metadata !! key) ∧
      (∀ name, name ≠ metadata_path "doc-0" →
               metadata_dir w' !! name = metadata_dir Stub.two_contracts !! name).
Proof.
  eexists _, _. split; [vm_compute; reflexivity |].
  eapply (proj1 (@extract_audit_frame Stub.babbles) (ExtractRequest.mk "doc-0")
            Stub.two_contracts).
  vm_compute. reflexivity.
Defined.

(** C9: after any sequence of ingest, extract and audit requests,
    [total_documents] of [/metrics] is the number of [*.json] files in the
    metadata directory; [/extract] and [/audit] leave the set of file names
    as it is, and each completed per-file ingestion adds exactly one file,
    named after an identifier that had no file. *)
Theorem metrics_total_documents `{B : Backend} :
  (∀ requests w, ∃ response,
     get_metrics (run requests w) = (Return response, run requests w) ∧
     MetricsResponse.total_documents response
     = Z.of_nat (size (filter (λ entry, endswith entry.1 ".json")
                         (metadata_dir (run requests w)))))
  ∧ (∀ r w, dom (metadata_dir (handle (Extract r) w)) = dom (metadata_dir w))
  ∧ (∀ r w, dom (metadata_dir (handle (Audit r) w)) = dom (metadata_dir w))
  ∧ (∀ file w r w',
       ingest_file file w = (Return r, w') →
       metadata_dir w !! metadata_path r.1 = None →
       is_Some (metadata_dir w' !! metadata_path r.1) ∧
       endswith (metadata_path r.1) ".json" = true ∧
       size (metadata_dir w') = S (size (metadata_dir w))).
Proof.
  split_and!.
  - intros requests w. eexists. rewrite get_metrics_run. split; [done |].
    simpl. unfold len. by rewrite glob_json_size.
  - intros r w. apply extract_fields_dom.
  - intros r w. apply audit_contract_dom.
  - intros file w r w' Hrun Hfresh.
    apply ingest_file_cases in Hrun as [(? & [=] & _) | (docs & _ & _ & [= ->] & _ & ->)].
    simpl in *. split_and!.
    + rewrite lookup_insert_eq. eauto.
    + apply metadata_path_json.
    + by apply map_size_insert_None.
Qed.

Lemma metrics_total_documents_witness :
  ∃ r w',
    @ingest_file Stub.answers (Stub.pdf "c.pdf" 2) Stub.two_contracts = (Return r, w') ∧
    is_Some (metadata_dir w' !! metadata_path r.1) ∧
    endswith (metadata_path r.1) ".json" = true ∧
    size (metadata_dir w') = S (size (metadata_dir Stub.two_contracts)).
Proof.
  eexists _, _. split; [vm_compute; reflexivity |].
  eapply (proj2 (proj2 (proj2 (@metrics_total_documents Stub.answers)))
            (Stub.pdf "c.pdf" 2) Stub.two_contracts);
    vm_compute; reflexivity.
Defined.

(** * Further properties of the service *)

(** ** Strings *)

Lemma slice_to_prefix n s : ∃ rest, s = slice_to n s +:+ rest.
Proof.
  unfold slice_to. generalize (Z.to_nat n) as m. intros m. revert s.
  induction m as [|m IH]; intros [|a s]; simpl; eauto.
  destruct (IH s) as [rest Hrest]. exists rest.
  change (String a s = String a (String.substring 0 m s +:+ rest)). by f_equal.
Qed.

Lemma slice_to_length_min n s :
  String.length (slice_to n s) = Nat.min (Z.to_nat n) (String.length s).
Proof.
  unfold slice_to. generalize (Z.to_nat n) as m. intros m. revert s.
  induction m as [|m IH]; intros [|a s]; simpl; try done.
  by rewrite IH.
Qed.

(** ** Citation excerpts *)

(** X2: in a successful [/ask] response, the citation of each retrieved
    document, the documents being ASCII text, quotes the first 200
    characters of that document's page content: it is a prefix of it, of
    length 200 or of the whole length when that is less. *)
Theorem ask_citation_excerpt `{B : Backend} request w response w' docs :
  ask_question_api request w = (Return response, w') →
  retrieve (AskRequest.question request) (AskRequest.k request)
    (AskRequest.document_ids request) w = (Return docs, w) →
  Forall (λ doc, ascii_text (page_content doc) = true) docs →
  Forall2 (λ doc c,
             String.length (Citation.content c)
             = Nat.min 200 (String.length (page_content doc)) ∧
             ∃ rest, page_content doc = Citation.content c +:+ rest)
    docs (AskResponse.citations response).
Proof.
  intros (docs' & w1 & Hask & Hcited & _)%ask_question_api_Return_inv Hret _.
  apply ask_question_Return_inv in Hask. rewrite Hret in Hask. injection Hask as <-.
  eapply Forall2_impl; [exact Hcited |].
  intros doc c Hc. unfold cited, cite in Hc.
  destruct (pydantic_str _); simpl in Hc; [| done].
  destruct (pydantic_optional_int _); simpl in Hc; [| done].
  injection Hc as <-. simpl.
  split; [apply (slice_to_length_min 200) | apply slice_to_prefix].
Qed.

Lemma ask_citation_excerpt_witness :
  ∃ response w' docs,
    @ask_question_api Stub.answers (Stub.ask "doc-1" 2) Stub.two_contracts
    = (Return response, w') ∧
    @retrieve Stub.answers "What is the governing law?" 2 (Some ["doc-1"]) Stub.two_contracts
    = (Return docs, Stub.two_contracts) ∧
    Forall (λ doc, ascii_text (page_content doc) = true) docs ∧
    Forall2 (λ doc c,
               String.length (Citation.content c)
               = Nat.min 200 (String.length (page_content doc)) ∧
               ∃ rest, page_content doc = Citation.content c +:+ rest)
      docs (AskResponse.citations response).
Proof.
  eexists _, _, _. split; [vm_compute; reflexivity |].
  split; [vm_compute; reflexivity |].
  split; [apply Forall_singleton; vm_compute; reflexivity |].
  eapply (@ask_citation_excerpt Stub.answers (Stub.ask "doc-1" 2) Stub.two_contracts);
    [vm_compute; reflexivity | vm_compute; reflexivity
    | apply Forall_singleton; vm_compute; reflexivity].
Defined.

(** ** More on [/ask] *)

(** The prompt [ask_question] sends for the documents it retrieved. *)
Definition ask_prompt (query : string) (docs : list Document) : list Message :=
  [SystemMessage ASK_SYSTEM_PROMPT;
   HumanMessage ("Context:" +:+ nl +:+ join (nl +:+ nl) (page_content <$> docs)
                 +:+ nl +:+ nl +:+ "Question: " +:+ query)].

Section Ask.
Context `{B : Backend}.


(** Every outcome of [ask_question]: it raised before or in the one call of
    the chat model, it found nothing and called nothing, or it returns the
    model's reply to the prompt built from the retrieved documents. *)
Lemma ask_question_cases query k document_ids w o w' :
  ask_question query k document_ids w = (o, w') →
  (∃ e, o = Raise e ∧ metrics w' = metrics w)
  ∨ (o = Return (NO_RELEVANT_INFORMATION, []) ∧ w' = w ∧
     retrieve query k document_ids w = (Return [], w))
  ∨ (∃ docs answer,
       docs ≠ [] ∧
       retrieve query k document_ids w = (Return docs, w) ∧
       ChatOpenAI None (ask_prompt query docs) = Some answer ∧
       o = Return (answer, docs) ∧
       w' = set_llm_calls (λ calls, calls ++ [ask_prompt query docs]) w).
Proof.
  unfold ask_question. unfold mbind at 1. unfold M_bind, bind.
  destruct (retrieve query k document_ids w) as [[docs|e] w1] eqn:Hret;
    pose proof (retrieve_world _ _ _ _ _ _ Hret) as ->;
    [| intros [= <- <-]; left; eauto].
  destruct docs as [|doc docs]; [intros [= <- <-]; right; left; done |].
  unfold mbind, M_bind, bind. rewrite llm_run.
  fold (ask_prompt query (doc :: docs)).
  destruct (ChatOpenAI None (ask_prompt query (doc :: docs))) as [answer|] eqn:Hllm;
    [| intros [= <- <-]; left; eauto].
  intros [= <- <-]. right. right. exists (doc :: docs), answer. by split_and!.
Qed.

(** Every outcome of [/ask], with the counters it leaves. *)
Lemma ask_question_api_cases request w o w' :
  ask_question_api request w = (o, w') →
  (∃ status_code detail,
     o = Raise (HTTPException status_code detail) ∧ metrics w' = metrics w)
  ∨ (∃ response w1 docs,
       o = Return response ∧
       ask_question (AskRequest.question request) (AskRequest.k request)
         (AskRequest.document_ids request) w
       = (Return (AskResponse.answer response, docs), w1) ∧
       Forall2 cited docs (AskResponse.citations response) ∧
       w' = set_metrics (add_questions 1) w1).
Proof.
  destruct o as [response|e].
  - intros Hrun. right.
    apply ask_question_api_Return_inv in Hrun as (docs & w1 & Hask & Hcited & _ & ->).
    by exists response, w1, docs.
  - unfold ask_question_api, http_or_500, try_except.
    unfold mbind at 1. unfold M_bind, bind.
    destruct (match AskRequest.document_ids request with
              | Some ((_ :: _) as ids) => validate_document_ids ids
              | _ => mret tt
              end w) as [[[]|e0] w0] eqn:Hcheck;
      pose proof (check_allow_list_world _ _ _ _ Hcheck) as ->.
    2: { intros Heq. left. destruct e0; simpl in Heq; injection Heq as <- <-; eauto. }
    unfold mbind at 1. unfold M_bind, bind.
    destruct (ask_question _ _ _ w) as [[[answer docs]|e1] w1] eqn:Hask.
    + unfold mbind at 1. unfold M_bind, bind, lift. simpl.
      destruct (mapM cite docs) as [citations|e2]; [done |].
      apply ask_question_cases in Hask as [(? & [=] & _) | [(_ & -> & _) | (? & ? & _ & _ & _ & _ & ->)]];
        intros Heq; left; destruct e2; simpl in Heq; injection Heq as <- <-; eauto.
    + apply ask_question_cases in Hask as [(? & _ & Hm) | [([=] & _) | (? & ? & _ & _ & _ & [=] & _)]].
      intros Heq. left. destruct e1; simpl in Heq; injection Heq as <- <-; eauto.
Qed.

End Ask.



(** X4: an empty [document_ids] list restricts nothing: [/ask] answers it
    exactly as it answers a request without allow-list. *)
Theorem ask_empty_allow_list `{B : Backend} question k w :
  ask_question_api (AskRequest.mk question (Some []) k) w
  = ask_question_api (AskRequest.mk question None k) w.
Proof. reflexivity. Qed.

(** X5: a successful [/ask] that cites something has called the chat model
    exactly once, with the prompt built from the retrieved documents, and
    answers with that reply and one citation per retrieved document, in
    retrieval order; the state changes by that call and one counted
    question. *)
Theorem ask_answer_from_model `{B : Backend} request w response w' :
  ask_question_api request w = (Return response, w') →
  AskResponse.citations response ≠ [] →
  ∃ docs,
    retrieve (AskRequest.question request) (AskRequest.k request)
      (AskRequest.document_ids request) w = (Return docs, w) ∧
    Forall2 cited docs (AskResponse.citations response) ∧
    ChatOpenAI None (ask_prompt (AskRequest.question request) docs)
    = Some (AskResponse.answer response) ∧
    w' = set_metrics (add_questions 1)
           (set_llm_calls (λ calls, calls ++ [ask_prompt (AskRequest.question request) docs]) w).
Proof.
  intros (docs & w1 & Hask & Hcited & _ & ->)%ask_question_api_Return_inv Hne.
  apply ask_question_cases in Hask
    as [(? & [=] & _) | [([= _ ->] & _) | (docs' & answer & _ & Hret & Hllm & [= <- <-] & ->)]].
  - by apply Forall2_nil_inv_l in Hcited.
  - by exists docs.
Qed.

Lemma ask_answer_from_model_witness :
  ∃ response w',
    @ask_question_api Stub.answers (Stub.ask "doc-1" 2) Stub.two_contracts
    = (Return response, w') ∧
    ∃ docs,
      @retrieve Stub.answers "What is the governing law?" 2 (Some ["doc-1"]) Stub.two_contracts
      = (Return docs, Stub.two_contracts) ∧
      Forall2 (@cited Stub.answers) docs (AskResponse.citations response) ∧
      @ChatOpenAI Stub.answers None (ask_prompt "What is the governing law?" docs)
      = Some (AskResponse.answer response) ∧
      w' = set_metrics (add_questions 1)
             (set_llm_calls
                (λ calls, calls ++ [ask_prompt "What is the governing law?" docs])
                Stub.two_contracts).
Proof.
  eexists _, _. split; [vm_compute; reflexivity |].
  eapply (@ask_answer_from_model Stub.answers (Stub.ask "doc-1" 2) Stub.two_contracts);
    [vm_compute; reflexivity | discriminate].
Defined.

(** ** The usage counters *)

Section Counters.
Context `{B : Backend}.

Lemma ingest_file_metrics file w o w' :
  ingest_file file w = (o, w') → metrics w' = metrics w.
Proof.
  unfold ingest_file.
  destruct (endswith (filename file) ".pdf"); simpl; [| by intros [= _ <-]].
  unfold mbind, M_bind, bind, gets, modify. rewrite load_pdf_run. simpl.
  rewrite lookup_insert_eq.
  destruct (PyPDFLoader_load _ _) as [docs|]; [| by intros [= _ <-]].
  unfold create_vector_db.
  destruct (embed_documents _); [| by intros [= _ <-]].
  unfold mbind, M_bind, bind, modify, mret, M_ret, ret. simpl. by intros [= _ <-].
Qed.

Lemma ingest_loop_metrics files document_ids total_chunks w o w' :
  ingest_loop files document_ids total_chunks w = (o, w') → metrics w' = metrics w.
Proof.
  revert document_ids total_chunks w.
  induction files as [|file files IH]; intros document_ids total_chunks w; simpl.
  - by intros [= _ <-].
  - unfold mbind, M_bind, bind.
    destruct (ingest_file file w) as [[r|e] w1] eqn:Hfile;
      apply ingest_file_metrics in Hfile.
    + intros Hloop%IH. congruence.
    + intros [= _ <-]. done.
Qed.

Lemma ingest_contracts_metrics files w :
  metrics (ingest_contracts files w).2
  = match (ingest_contracts files w).1 with
    | Return _ => add_ingestions (len files) (metrics w)
    | Raise _ => metrics w
    end.
Proof.
  unfold ingest_contracts. destruct files as [|file rest] eqn:Hfiles; [done |].
  rewrite <- Hfiles. clear Hfiles. unfold try_except, mbind, M_bind, bind.
  destruct (ingest_loop files [] 0 w) as [[r|e] w1] eqn:Hloop;
    apply ingest_loop_metrics in Hloop; simpl; by rewrite Hloop.
Qed.

Lemma extract_fields_metrics r w :
  metrics (extract_fields r w).2
  = match (extract_fields r w).1 with
    | Return _ => add_extractions 1 (metrics w)
    | Raise _ => metrics w
    end.
Proof.
  destruct r as [document_id]. unfold extract_fields, http_or_500, try_except. simpl.
  unfold mbind, M_bind, bind, raise. rewrite load_document_metadata_run.
  destruct (metadata_dir w !! metadata_path document_id) as [metadata|]; [| done].
  destruct (backing_pdf document_id metadata w) as [[path|e] w1] eqn:Hpdf;
    apply backing_pdf_world in Hpdf as ->; [| by destruct e].
  rewrite load_pdf_run.
  destruct (upload_dir w !! path) as [bytes|]; [| done].
  destruct (PyPDFLoader_load path bytes) as [docs|]; [| done].
  rewrite extract_contract_fields_run.
  destruct (ChatOpenAI _ _) as [content|]; [| done].
  destruct (fields_of_reply content) as [fields|e]; [done | by destruct e].
Qed.

Lemma audit_contract_metrics r w :
  metrics (audit_contract r w).2
  = match (audit_contract r w).1 with
    | Return _ => add_audits 1 (metrics w)
    | Raise _ => metrics w
    end.
Proof.
  destruct r as [document_id]. unfold audit_contract, http_or_500, try_except. simpl.
  unfold mbind, M_bind, bind, raise. rewrite load_document_metadata_run.
  destruct (metadata_dir w !! metadata_path document_id) as [metadata|]; [| done].
  destruct (backing_pdf document_id metadata w) as [[path|e] w1] eqn:Hpdf;
    apply backing_pdf_world in Hpdf as ->; [| by destruct e].
  rewrite load_pdf_run.
  destruct (upload_dir w !! path) as [bytes|]; [| done].
  destruct (PyPDFLoader_load path bytes) as [docs|]; [| done].
  rewrite audit_contract_risks_run.
  by destruct (ChatOpenAI _ _) as [content|].
Qed.

Lemma ask_question_api_metrics request w :
  metrics (ask_question_api request w).2
  = match (ask_question_api request w).1 with
    | Return _ => add_questions 1 (metrics w)
    | Raise _ => metrics w
    end.
Proof.
  destruct (ask_question_api request w) as [o w'] eqn:Hrun. simpl.
  apply ask_question_api_cases in Hrun
    as [(? & ? & -> & Hm) | (response & w1 & docs & -> & Hask & _ & ->)]; [done |].
  simpl. f_equal.
  by apply ask_question_cases in Hask
    as [(? & [=] & _) | [(_ & -> & _) | (? & ? & _ & _ & _ & _ & ->)]].
Qed.

End Counters.

(** X6: each counter counts the successes of its endpoint and nothing else:
    a request that succeeds adds to its own counter, by the number of files
    for [/ingest] and by one for [/extract], [/ask] and [/audit], and a
    request that fails leaves all five counters as they were. *)
Theorem counters_count_successes `{B : Backend} :
  (∀ files w,
     metrics (ingest_contracts files w).2
     = match (ingest_contracts files w).1 with
       | Return _ => add_ingestions (len files) (metrics w)
       | Raise _ => metrics w
       end)
  ∧ (∀ r w,
       metrics (extract_fields r w).2
       = match (extract_fields r w).1 with
         | Return _ => add_extractions 1 (metrics w)
         | Raise _ => metrics w
         end)
  ∧ (∀ r w,
       metrics (ask_question_api r w).2
       = match (ask_question_api r w).1 with
         | Return _ => add_questions 1 (metrics w)
         | Raise _ => metrics w
         end)
  ∧ (∀ r w,
       metrics (audit_contract r w).2
       = match (audit_contract r w).1 with
         | Return _ => add_audits 1 (metrics w)
         | Raise _ => metrics w
         end).
Proof.
  split_and!; intros.
  - apply ingest_contracts_metrics.
  - apply extract_fields_metrics.
  - apply ask_question_api_metrics.
  - apply audit_contract_metrics.
Qed.

(** X7: a batch is not rolled back.  When the first file of an upload is
    ingested and the second is not a PDF, [/ingest] answers 500 and the
    state is the one the first file left: its metadata file is there, and no
    ingestion has been counted. *)
Theorem ingest_batch_not_rolled_back `{B : Backend} first bad rest w r w1 :
  ingest_file first w = (Return r, w1) →
  endswith (filename bad) ".pdf" = false →
  ingest_contracts (first :: bad :: rest) w
  = (Raise (HTTPException 500
              ("Error during ingestion: 400: File " +:+ filename bad +:+ " is not a PDF")),
     w1) ∧
  is_Some (metadata_dir w1 !! metadata_path r.1) ∧
  metrics w1 = metrics w.
Proof.
  intros Hfirst Hbad. split_and!.
  - unfold ingest_contracts, try_except. simpl. unfold mbind, M_bind, bind.
    by rewrite Hfirst, (ingest_file_not_pdf _ _ Hbad).
  - apply ingest_file_cases in Hfirst as [(? & [=] & _) | (docs & _ & _ & [= ->] & _ & ->)].
    simpl. rewrite lookup_insert_eq. eauto.
  - by apply ingest_file_metrics in Hfirst.
Qed.

Lemma ingest_batch_not_rolled_back_witness :
  ∃ r w1,
    @ingest_file Stub.answers (Stub.pdf "a.pdf" 2) Stub.fresh = (Return r, w1) ∧
    @ingest_contracts Stub.answers [Stub.pdf "a.pdf" 2; Stub.pdf "b.docx" 2; Stub.pdf "c.pdf" 1]
      Stub.fresh
    = (Raise (HTTPException 500 "Error during ingestion: 400: File b.docx is not a PDF"), w1) ∧
    is_Some (metadata_dir w1 !! metadata_path r.1) ∧
    metrics w1 = metrics Stub.fresh.
Proof.
  eexists _, _. split; [vm_compute; reflexivity |].
  eapply (@ingest_batch_not_rolled_back Stub.answers (Stub.pdf "a.pdf" 2)
            (Stub.pdf "b.docx" 2) [Stub.pdf "c.pdf" 1] Stub.fresh);
    vm_compute; reflexivity.
Defined.

(** ** The document listing *)

(** The keys [list_documents] reads from each record. *)
Definition summary_keys : list string :=
  ["document_id"; "filename"; "upload_date"; "num_pages"; "num_chunks"].

(** A record [list_documents] can summarise. *)
Definition listable (metadata : dict) : Prop :=
  Forall (λ key, is_Some (metadata !! key)) summary_keys.

(** Every [*.json] file of the directory holds a listable record. *)
Definition listable_dir (dir : gmap string dict) : Prop :=
  map_Forall (λ name metadata, endswith name ".json" = true → listable metadata) dir.

Lemma summary_listable metadata :
  listable metadata →
  ∃ entry, summary metadata = inr entry ∧
           ∀ key, key ∈ summary_keys → entry !! key = metadata !! key.
Proof.
  unfold listable, summary_keys. rewrite !Forall_cons.
  intros ([v1 H1] & [v2 H2] & [v3 H3] & [v4 H4] & [v5 H5] & _).
  unfold summary, subscript. rewrite H1, H2, H3, H4, H5. eexists. split; [done |].
  intros key Hkey. rewrite !elem_of_cons in Hkey.
  destruct Hkey as [-> | [-> | [-> | [-> | [-> | Hkey]]]]];
    [by simplify_map_eq.. | by apply elem_of_nil in Hkey].
Qed.

Lemma summary_not_listable metadata :
  ¬ listable metadata →
  ∃ key, key ∈ summary_keys ∧ summary metadata = inl (MkKeyError key).
Proof.
  intros Hnot. unfold summary, subscript, summary_keys.
  destruct (metadata !! "document_id") eqn:H1; [| exists "document_id"; split; [set_solver | done]].
  destruct (metadata !! "filename") eqn:H2; [| exists "filename"; split; [set_solver | done]].
  destruct (metadata !! "upload_date") eqn:H3; [| exists "upload_date"; split; [set_solver | done]].
  destruct (metadata !! "num_pages") eqn:H4; [| exists "num_pages"; split; [set_solver | done]].
  destruct (metadata !! "num_chunks") eqn:H5; [| exists "num_chunks"; split; [set_solver | done]].
  destruct Hnot. unfold listable, summary_keys. rewrite !Forall_cons.
  rewrite H1, H2, H3, H4, H5. by split_and!.
Qed.

Lemma list_loop_listable records documents :
  Forall listable records →
  ∃ entries,
    list_loop records documents = inr (documents ++ entries) ∧
    Forall2 (λ metadata entry, ∀ key, key ∈ summary_keys → entry !! key = metadata !! key)
      records entries.
Proof.
  intros Hall. revert documents.
  induction Hall as [|metadata records Hm _ IH]; intros documents; simpl.
  - exists []. by rewrite app_nil_r.
  - destruct (summary_listable _ Hm) as (entry & -> & Hentry).
    destruct (IH (documents ++ [entry])) as (entries & -> & Hentries).
    exists (entry :: entries). split; [by rewrite <- app_assoc | by constructor].
Qed.

Lemma list_loop_not_listable records documents :
  Exists (λ metadata, ¬ listable metadata) records →
  ∃ key, key ∈ summary_keys ∧ list_loop records documents = inl (MkKeyError key).
Proof.
  intros Hex. revert documents.
  induction records as [|metadata records IH]; intros documents; [by apply Exists_nil in Hex |].
  simpl. destruct (summary metadata) as [[key]|entry] eqn:Hsum.
  - destruct (decide (listable metadata)) as [Hm | Hm].
    + destruct (summary_listable _ Hm) as (? & Heq & _). congruence.
    + destruct (summary_not_listable _ Hm) as (key' & Hkey & Heq).
      exists key'. split; [done | congruence].
  - apply Exists_cons in Hex as [Hm | Hex]; [| by apply IH].
    destruct (summary_not_listable _ Hm) as (? & _ & Heq). congruence.
Qed.

Lemma glob_records_length (dir : gmap string dict) :
  length (glob_records dir) = length (glob_json dir).
Proof.
  unfold glob_records, glob_json. rewrite length_fmap.
  induction (map_to_list dir) as [|[name m] l IH]; [done |].
  rewrite fmap_cons, !filter_cons. cbn [fst].
  destruct (decide (endswith name ".json")); simpl; by rewrite IH.
Qed.

Lemma glob_records_listable (dir : gmap string dict) :
  listable_dir dir → Forall listable (glob_records dir).
Proof.
  intros Hdir. unfold glob_records. apply Forall_fmap, Forall_forall.
  intros [name m] [Hjson Hin%elem_of_map_to_list]%list_elem_of_filter. simpl in *.
  apply (Hdir name m Hin). by apply Is_true_true.
Qed.

Lemma listable_insert key v metadata : listable metadata → listable (<[key := v]> metadata).
Proof.
  unfold listable. intros Hall. eapply Forall_impl; [exact Hall |]. intros k [x Hx].
  destruct (decide (key = k)) as [-> | Hne];
    [rewrite lookup_insert_eq | rewrite lookup_insert_ne by done]; eauto.
Qed.

Lemma listable_dir_insert name metadata dir :
  listable metadata → listable_dir dir → listable_dir (<[name := metadata]> dir).
Proof. intros Hm Hdir. apply map_Forall_insert_2; [done | done]. Qed.

Section Listing.
Context `{B : Backend}.

Lemma ingested_listable document_id file docs upload_date :
  listable (ingested document_id file docs upload_date).
Proof.
  unfold listable, summary_keys, ingested. rewrite !Forall_cons.
  split_and!; [by simplify_map_eq.. | done].
Qed.

Lemma ingest_loop_listable files document_ids total_chunks w o w' :
  ingest_loop files document_ids total_chunks w = (o, w') →
  listable_dir (metadata_dir w) → listable_dir (metadata_dir w').
Proof.
  revert document_ids total_chunks w.
  induction files as [|file files IH]; intros document_ids total_chunks w; simpl.
  - by intros [= _ <-].
  - unfold mbind, M_bind, bind.
    destruct (ingest_file file w) as [[r|e] w1] eqn:Hfile;
      apply ingest_file_cases in Hfile as [(? & Ho & Hdir) | (docs & _ & _ & Ho & _ & Hdir)];
      try discriminate; intros Hrun Hinv.
    + eapply IH; [exact Hrun |]. rewrite Hdir.
      apply listable_dir_insert; [apply ingested_listable | done].
    + injection Hrun as _ <-. by rewrite Hdir.
Qed.

(** Every request keeps the directory listable. *)
Lemma handle_listable r w :
  listable_dir (metadata_dir w) → listable_dir (metadata_dir (handle r w)).
Proof.
  intros Hinv. destruct r as [files | r | r]; simpl.
  - unfold ingest_contracts. destruct files as [|file rest] eqn:Hfiles; [done |].
    rewrite <- Hfiles. clear Hfiles. unfold try_except, mbind, M_bind, bind.
    destruct (ingest_loop files [] 0 w) as [[res|e] w1] eqn:Hloop;
      apply ingest_loop_listable in Hloop; done.
  - destruct (extract_fields r w) as [o w'] eqn:Hrun. simpl.
    apply extract_fields_cases in Hrun as [(? & ? & _ & ->) | (m & fields & _ & Hm & ->)];
      [done |].
    apply listable_dir_insert; [| done]. unfold with_extraction.
    do 2 apply listable_insert. apply (Hinv _ _ Hm), metadata_path_json.
  - destruct (audit_contract r w) as [o w'] eqn:Hrun. simpl.
    apply audit_contract_cases in Hrun as [(? & ? & _ & ->) | (m & findings & _ & Hm & ->)];
      [done |].
    apply listable_dir_insert; [| done]. unfold with_audit.
    apply listable_insert. apply (Hinv _ _ Hm), metadata_path_json.
Qed.

Lemma run_listable requests w :
  listable_dir (metadata_dir w) → listable_dir (metadata_dir (run requests w)).
Proof.
  revert w. induction requests as [|r requests IH]; intros w Hinv; [done |].
  simpl. by apply IH, handle_listable.
Qed.

End Listing.
